(** * Attendance application: the state store, the registration form and the
      duration computation

    A shallow embedding of
    - [src/context/AttendanceContext.tsx]: the data model, [initialState] and
      [attendanceReducer], on the declared types and, in [Raw], on the
      values that reach the reducer at run time;
    - [src/pages/AddPerson.tsx]: [validateForm];
    - the attendance page (the [MarkAttendance] component):
      [calculateDuration] and the handlers of its buttons;
    - the rest of [src/pages/AddPerson.tsx]: the capture timer and
      [handleSavePerson];
    - what the dashboard and [src/pages/TrainImages.tsx] derive from the
      state;
    followed by the properties of the specification, each proved, or refuted
    and restated, against these definitions.

    Conventions of the embedding.
    - A JavaScript [number] is an integer of [Z]: the counters, image counts,
      confidence percentages and fields of a clock time that the numbers of
      this code hold are integers far below 2^53, where the arithmetic of
      doubles on integers is exact.
    - A [Date] is its time value, the milliseconds since the epoch.
    - An optional property [f?: T] is an [option T]; [None] is [undefined].
    - A string is a [string] of the Standard Library, each character standing
      for one code unit in the range 0..255. *)

From Stdlib Require Import ZArith List String Ascii Bool Lia.
From Stdlib Require Import DecimalString DecimalPos DecimalZ.
Import ListNotations.

Set Implicit Arguments.

(* ================================================================== *)
(** * Definitions *)
(* ================================================================== *)

(** ** The store: [src/context/AttendanceContext.tsx] *)

Module Store.

Local Open Scope Z_scope.

Definition Date := Z.

Module Person.
Record t := mk {
    id : string;
    name : string;
    email : option string;
    department : option string;
    imageCount : option Z;
    isActive : bool;
    createdAt : Date
  }.
End Person.

Inductive AttendanceStatus := Present | Absent | Late | MCR.

Definition AttendanceStatus_eqb (a b : AttendanceStatus) : bool :=
  match a, b with
  | Present, Present | Absent, Absent | Late, Late | MCR, MCR => true
  | _, _ => false
  end.

Module AttendanceRecord.
Record t := mk {
    id : string;
    personId : string;
    personName : string;
    date : string;
    clockInTime : option string;
    clockOutTime : option string;
    duration : option string;
    status : AttendanceStatus;
    confidence : option Z
  }.
End AttendanceRecord.

Inductive TrainingStatus := in_progress | completed | failed.

Module TrainingSession.
Record t := mk {
    id : string;
    personId : string;
    personName : string;
    imagesCaptured : Z;
    totalImages : Z;
    status : TrainingStatus;
    startTime : Date;
    endTime : option Date
  }.
End TrainingSession.

(** [Partial<T>]: every property may be absent.  A property that is already
    optional in [T] may be absent ([None]), or present and [undefined]
    ([Some None]), or present with a value.  A patch that holds [undefined]
    for a property that [T] requires would turn the entity into an object
    that is no [T]; such patches are not represented. *)

Module PartialPerson.
Record t := mk {
    id : option string;
    name : option string;
    email : option (option string);
    department : option (option string);
    imageCount : option (option Z);
    isActive : option bool;
    createdAt : option Date
  }.
End PartialPerson.

Module PartialAttendanceRecord.
Record t := mk {
    id : option string;
    personId : option string;
    personName : option string;
    date : option string;
    clockInTime : option (option string);
    clockOutTime : option (option string);
    duration : option (option string);
    status : option AttendanceStatus;
    confidence : option (option Z)
  }.
End PartialAttendanceRecord.

Module PartialTrainingSession.
Record t := mk {
    id : option string;
    personId : option string;
    personName : option string;
    imagesCaptured : option Z;
    totalImages : option Z;
    status : option TrainingStatus;
    startTime : option Date;
    endTime : option (option Date)
  }.
End PartialTrainingSession.

(** One property of an object spread [{ ...old, ...updates }]: the later
    object wins where it has the property. *)
Definition spread1 {A : Type} (old : A) (upd : option A) : A :=
  match upd with
  | Some v => v
  | None => old
  end.

(** [{ ...person, ...action.payload.updates }] *)
Definition spreadPerson (person : Person.t) (updates : PartialPerson.t)
  : Person.t :=
  {| Person.id := spread1 (Person.id person) (PartialPerson.id updates);
     Person.name := spread1 (Person.name person) (PartialPerson.name updates);
     Person.email :=
       spread1 (Person.email person) (PartialPerson.email updates);
     Person.department :=
       spread1 (Person.department person) (PartialPerson.department updates);
     Person.imageCount :=
       spread1 (Person.imageCount person) (PartialPerson.imageCount updates);
     Person.isActive :=
       spread1 (Person.isActive person) (PartialPerson.isActive updates);
     Person.createdAt :=
       spread1 (Person.createdAt person) (PartialPerson.createdAt updates) |}.

(** [{ ...record, ...action.payload.updates }] *)
Definition spreadRecord (record : AttendanceRecord.t)
  (updates : PartialAttendanceRecord.t) : AttendanceRecord.t :=
  {| AttendanceRecord.id :=
       spread1 (AttendanceRecord.id record)
               (PartialAttendanceRecord.id updates);
     AttendanceRecord.personId :=
       spread1 (AttendanceRecord.personId record)
               (PartialAttendanceRecord.personId updates);
     AttendanceRecord.personName :=
       spread1 (AttendanceRecord.personName record)
               (PartialAttendanceRecord.personName updates);
     AttendanceRecord.date :=
       spread1 (AttendanceRecord.date record)
               (PartialAttendanceRecord.date updates);
     AttendanceRecord.clockInTime :=
       spread1 (AttendanceRecord.clockInTime record)
               (PartialAttendanceRecord.clockInTime updates);
     AttendanceRecord.clockOutTime :=
       spread1 (AttendanceRecord.clockOutTime record)
               (PartialAttendanceRecord.clockOutTime updates);
     AttendanceRecord.duration :=
       spread1 (AttendanceRecord.duration record)
               (PartialAttendanceRecord.duration updates);
     AttendanceRecord.status :=
       spread1 (AttendanceRecord.status record)
               (PartialAttendanceRecord.status updates);
     AttendanceRecord.confidence :=
       spread1 (AttendanceRecord.confidence record)
               (PartialAttendanceRecord.confidence updates) |}.

(** [{ ...session, ...action.payload.updates }] *)
Definition spreadSession (session : TrainingSession.t)
  (updates : PartialTrainingSession.t) : TrainingSession.t :=
  {| TrainingSession.id :=
       spread1 (TrainingSession.id session)
               (PartialTrainingSession.id updates);
     TrainingSession.personId :=
       spread1 (TrainingSession.personId session)
               (PartialTrainingSession.personId updates);
     TrainingSession.personName :=
       spread1 (TrainingSession.personName session)
               (PartialTrainingSession.personName updates);
     TrainingSession.imagesCaptured :=
       spread1 (TrainingSession.imagesCaptured session)
               (PartialTrainingSession.imagesCaptured updates);
     TrainingSession.totalImages :=
       spread1 (TrainingSession.totalImages session)
               (PartialTrainingSession.totalImages updates);
     TrainingSession.status :=
       spread1 (TrainingSession.status session)
               (PartialTrainingSession.status updates);
     TrainingSession.startTime :=
       spread1 (TrainingSession.startTime session)
               (PartialTrainingSession.startTime updates);
     TrainingSession.endTime :=
       spread1 (TrainingSession.endTime session)
               (PartialTrainingSession.endTime updates) |}.

Module CurrentSession.
Record t := mk {
    isActive : bool;
    lectureDuration : option string;
    startTime : option Date
  }.
End CurrentSession.

Module Statistics.
Record t := mk {
    totalPersons : Z;
    presentToday : Z;
    totalClockIns : Z;
    totalClockOuts : Z
  }.
End Statistics.

Record AttendanceState := mkState {
  persons : list Person.t;
  attendanceRecords : list AttendanceRecord.t;
  trainingSessions : list TrainingSession.t;
  currentSession : CurrentSession.t;
  statistics : Statistics.t
}.

Inductive AttendanceAction :=
| ADD_PERSON (payload : Person.t)
| UPDATE_PERSON (id : string) (updates : PartialPerson.t)
| DELETE_PERSON (payload : string)
| ADD_ATTENDANCE_RECORD (payload : AttendanceRecord.t)
| UPDATE_ATTENDANCE_RECORD (id : string) (updates : PartialAttendanceRecord.t)
| START_TRAINING_SESSION (payload : TrainingSession.t)
| UPDATE_TRAINING_SESSION (id : string) (updates : PartialTrainingSession.t)
| START_ATTENDANCE_SESSION (lectureDuration : string)
| END_ATTENDANCE_SESSION
| UPDATE_STATISTICS.

(** The [type] property of an action. *)
Definition action_type (action : AttendanceAction) : string :=
  match action with
  | ADD_PERSON _ => "ADD_PERSON"
  | UPDATE_PERSON _ _ => "UPDATE_PERSON"
  | DELETE_PERSON _ => "DELETE_PERSON"
  | ADD_ATTENDANCE_RECORD _ => "ADD_ATTENDANCE_RECORD"
  | UPDATE_ATTENDANCE_RECORD _ _ => "UPDATE_ATTENDANCE_RECORD"
  | START_TRAINING_SESSION _ => "START_TRAINING_SESSION"
  | UPDATE_TRAINING_SESSION _ _ => "UPDATE_TRAINING_SESSION"
  | START_ATTENDANCE_SESSION _ => "START_ATTENDANCE_SESSION"
  | END_ATTENDANCE_SESSION => "END_ATTENDANCE_SESSION"
  | UPDATE_STATISTICS => "UPDATE_STATISTICS"
  end.

(** The labels of the [case] clauses of the reducer's [switch]. *)
Definition handled_types : list string :=
  [ "ADD_PERSON"; "UPDATE_PERSON"; "DELETE_PERSON";
    "ADD_ATTENDANCE_RECORD"; "UPDATE_ATTENDANCE_RECORD";
    "START_TRAINING_SESSION"; "UPDATE_TRAINING_SESSION";
    "START_ATTENDANCE_SESSION"; "END_ATTENDANCE_SESSION" ]%string.

(** [new Date('2023-01-0d')]: a date-only form is read as UTC midnight. *)
Definition date_2023_01_01 : Date := 1672531200000.
Definition date_2023_01_02 : Date := 1672617600000.
Definition date_2023_01_03 : Date := 1672704000000.

Definition initialState : AttendanceState :=
  {| persons :=
       [ Person.mk "1" "Abhinav" (Some "abhinav@example.com"%string)
           (Some "Engineering"%string) (Some 101) true date_2023_01_01;
         Person.mk "2" "Venkat" (Some "venkat@example.com"%string)
           (Some "Engineering"%string) (Some 101) true date_2023_01_02;
         Person.mk "3" "Ashritha" (Some "ashritha@example.com"%string)
           (Some "Design"%string) (Some 101) true date_2023_01_03 ];
     attendanceRecords := [];
     trainingSessions := [];
     currentSession := CurrentSession.mk false None None;
     statistics := Statistics.mk 3 0 0 0 |}.

(** Truthiness of a value of type [string | undefined]: [undefined] and the
    empty string are falsy, every other string is truthy. *)
Definition truthy (v : option string) : bool :=
  match v with
  | None => false
  | Some s => negb (String.eqb s "")
  end.

(** [attendanceReducer(state, action)].  The one impure expression of the
    function, [new Date()] in the START_ATTENDANCE_SESSION case, reads the
    clock; its value is the argument [now]. *)
Definition attendanceReducer (now : Date) (state : AttendanceState)
  (action : AttendanceAction) : AttendanceState :=
  match action with
  | ADD_PERSON payload =>
      {| persons := persons state ++ [payload];
         attendanceRecords := attendanceRecords state;
         trainingSessions := trainingSessions state;
         currentSession := currentSession state;
         statistics :=
           {| Statistics.totalPersons :=
                Statistics.totalPersons (statistics state) + 1;
              Statistics.presentToday :=
                Statistics.presentToday (statistics state);
              Statistics.totalClockIns :=
                Statistics.totalClockIns (statistics state);
              Statistics.totalClockOuts :=
                Statistics.totalClockOuts (statistics state) |} |}
  | UPDATE_PERSON id updates =>
      {| persons :=
           map (fun person =>
                  if String.eqb (Person.id person) id
                  then spreadPerson person updates
                  else person)
               (persons state);
         attendanceRecords := attendanceRecords state;
         trainingSessions := trainingSessions state;
         currentSession := currentSession state;
         statistics := statistics state |}
  | DELETE_PERSON payload =>
      {| persons :=
           filter (fun person => negb (String.eqb (Person.id person) payload))
                  (persons state);
         attendanceRecords := attendanceRecords state;
         trainingSessions := trainingSessions state;
         currentSession := currentSession state;
         statistics :=
           {| Statistics.totalPersons :=
                Statistics.totalPersons (statistics state) - 1;
              Statistics.presentToday :=
                Statistics.presentToday (statistics state);
              Statistics.totalClockIns :=
                Statistics.totalClockIns (statistics state);
              Statistics.totalClockOuts :=
                Statistics.totalClockOuts (statistics state) |} |}
  | ADD_ATTENDANCE_RECORD payload =>
      let newRecord := payload in
      let isClockIn :=
        truthy (AttendanceRecord.clockInTime newRecord)
        && negb (truthy (AttendanceRecord.clockOutTime newRecord)) in
      let isClockOut := truthy (AttendanceRecord.clockOutTime newRecord) in
      {| persons := persons state;
         attendanceRecords := attendanceRecords state ++ [newRecord];
         trainingSessions := trainingSessions state;
         currentSession := currentSession state;
         statistics :=
           {| Statistics.totalPersons :=
                Statistics.totalPersons (statistics state);
              Statistics.totalClockIns :=
                if isClockIn
                then Statistics.totalClockIns (statistics state) + 1
                else Statistics.totalClockIns (statistics state);
              Statistics.totalClockOuts :=
                if isClockOut
                then Statistics.totalClockOuts (statistics state) + 1
                else Statistics.totalClockOuts (statistics state);
              Statistics.presentToday :=
                if AttendanceStatus_eqb (AttendanceRecord.status newRecord)
                                        Present
                then Statistics.presentToday (statistics state) + 1
                else Statistics.presentToday (statistics state) |} |}
  | UPDATE_ATTENDANCE_RECORD id updates =>
      {| persons := persons state;
         attendanceRecords :=
           map (fun record =>
                  if String.eqb (AttendanceRecord.id record) id
                  then spreadRecord record updates
                  else record)
               (attendanceRecords state);
         trainingSessions := trainingSessions state;
         currentSession := currentSession state;
         statistics := statistics state |}
  | START_TRAINING_SESSION payload =>
      {| persons := persons state;
         attendanceRecords := attendanceRecords state;
         trainingSessions := trainingSessions state ++ [payload];
         currentSession := currentSession state;
         statistics := statistics state |}
  | UPDATE_TRAINING_SESSION id updates =>
      {| persons := persons state;
         attendanceRecords := attendanceRecords state;
         trainingSessions :=
           map (fun session =>
                  if String.eqb (TrainingSession.id session) id
                  then spreadSession session updates
                  else session)
               (trainingSessions state);
         currentSession := currentSession state;
         statistics := statistics state |}
  | START_ATTENDANCE_SESSION lectureDuration =>
      {| persons := persons state;
         attendanceRecords := attendanceRecords state;
         trainingSessions := trainingSessions state;
         currentSession :=
           {| CurrentSession.isActive := true;
              CurrentSession.lectureDuration := Some lectureDuration;
              CurrentSession.startTime := Some now |};
         statistics := statistics state |}
  | END_ATTENDANCE_SESSION =>
      {| persons := persons state;
         attendanceRecords := attendanceRecords state;
         trainingSessions := trainingSessions state;
         currentSession :=
           {| CurrentSession.isActive := false;
              CurrentSession.lectureDuration := None;
              CurrentSession.startTime := None |};
         statistics := statistics state |}
  | _ => state
  end.

(** A dispatched action together with the clock reading at which the reducer
    runs for it. *)
Definition Dispatch : Type := Date * AttendanceAction.

(** The state after a sequence of dispatches, oldest first: what
    [useReducer(attendanceReducer, initialState)] holds after them. *)
Fixpoint dispatchAll (state : AttendanceState) (ds : list Dispatch)
  : AttendanceState :=
  match ds with
  | [] => state
  | (now, action) :: rest =>
      dispatchAll (attendanceReducer now state action) rest
  end.

End Store.

(** ** The built-ins of the language that the two page functions call *)

Module Js.

Definition code (c : ascii) : nat := nat_of_ascii c.

(** [\d] *)
Definition is_digit (c : ascii) : bool :=
  (48 <=? code c)%nat && (code c <=? 57)%nat.

(** [[a-zA-Z]] without the [\s] *)
Definition is_letter (c : ascii) : bool :=
  ((97 <=? code c)%nat && (code c <=? 122)%nat)
  || ((65 <=? code c)%nat && (code c <=? 90)%nat).

(** [\s], and the characters that [trim] strips: tab, line feed, vertical
    tab, form feed, carriage return, space and no-break space (the white
    space and line terminators among the code units 0..255). *)
Definition is_space (c : ascii) : bool :=
  ((9 <=? code c)%nat && (code c <=? 13)%nat)
  || (code c =? 32)%nat || (code c =? 160)%nat.

(** Regular expressions, as far as the patterns of the source need them:
    character classes, concatenation and repetition.  [Void], [Alt] and
    [Star] are what derivatives of these are built from. *)
Inductive regex :=
| Void
| Eps
| Cls (p : ascii -> bool)
| Cat (r1 r2 : regex)
| Alt (r1 r2 : regex)
| Star (r : regex).

(** [r+] *)
Definition Plus (r : regex) : regex := Cat r (Star r).

(** A literal character. *)
Definition Chr (c : ascii) : regex := Cls (Ascii.eqb c).

Fixpoint nullable (r : regex) : bool :=
  match r with
  | Void => false
  | Eps => true
  | Cls _ => false
  | Cat r1 r2 => nullable r1 && nullable r2
  | Alt r1 r2 => nullable r1 || nullable r2
  | Star _ => true
  end.

Fixpoint deriv (c : ascii) (r : regex) : regex :=
  match r with
  | Void => Void
  | Eps => Void
  | Cls p => if p c then Eps else Void
  | Cat r1 r2 =>
      if nullable r1
      then Alt (Cat (deriv c r1) r2) (deriv c r2)
      else Cat (deriv c r1) r2
  | Alt r1 r2 => Alt (deriv c r1) (deriv c r2)
  | Star r1 => Cat (deriv c r1) (Star r1)
  end.

Fixpoint matches (r : regex) (w : list ascii) : bool :=
  match w with
  | [] => nullable r
  | c :: w' => matches (deriv c r) w'
  end.

(** [/^r$/.test(s)]: with both anchors and no flag, the whole of [s] has to
    match [r]. *)
Definition test (r : regex) (s : string) : bool :=
  matches r (list_ascii_of_string s).

Fixpoint dropWhile (p : ascii -> bool) (w : list ascii) : list ascii :=
  match w with
  | [] => []
  | c :: w' => if p c then dropWhile p w' else w
  end.

(** [s.trim()] *)
Definition trim (s : string) : string :=
  string_of_list_ascii
    (rev (dropWhile is_space (rev (dropWhile is_space
                                      (list_ascii_of_string s))))).

(** Truthiness of a string: every string but the empty one. *)
Definition truthy (s : string) : bool := negb (String.eqb s "").

(** [s.split(sep)] for a separator of one character: the pieces between the
    occurrences of [sep], an empty string giving one empty piece. *)
Fixpoint split (sep : ascii) (s : string) : list string :=
  match s with
  | EmptyString => [EmptyString]
  | String c s' =>
      if Ascii.eqb c sep
      then EmptyString :: split sep s'
      else match split sep s' with
           | piece :: pieces => String c piece :: pieces
           | [] => [String c EmptyString]
           end
  end.

Fixpoint digits_value (acc : Z) (s : string) : Z :=
  match s with
  | EmptyString => acc
  | String c s' =>
      digits_value (10 * acc + Z.of_nat (code c - 48)) s'
  end%Z.

Fixpoint all_digits (s : string) : bool :=
  match s with
  | EmptyString => true
  | String c s' => is_digit c && all_digits s'
  end.

(** [Number(s)] on the strings it is modelled for: a non-empty run of
    decimal digits converts to its value.  Every other string (white space,
    signs, fractions, exponents, radix prefixes, and what converts to NaN)
    is outside the model, [None]. *)
Definition Number (s : string) : option Z :=
  match s with
  | EmptyString => None
  | _ => if all_digits s then Some (digits_value 0 s) else None
  end.

(** [n.toString()] for an integer [n]: decimal digits, with a minus sign
    before a negative number. *)
Definition toString (n : Z) : string :=
  NilZero.string_of_int (Z.to_int n).

Fixpoint repeat_char (c : ascii) (n : nat) : string :=
  match n with
  | O => EmptyString
  | S n' => String c (repeat_char c n')
  end.

(** [s.padStart(targetLength, c)] for a filler [c] of one character. *)
Definition padStart (targetLength : nat) (c : ascii) (s : string) : string :=
  (repeat_char c (targetLength - String.length s) ++ s)%string.

End Js.

(** ** The registration form: [src/pages/AddPerson.tsx] *)

Module AddPerson.

Import Js.

(** The component's [formData] state. *)
Record FormData := mkForm {
  id : string;
  name : string;
  email : string;
  department : string
}.

(** The object [newErrors]: one optional message per validated field. *)
Module Errors.
Record t := mk {
  id : option string;
  name : option string;
  email : option string
}.
End Errors.

(** [/^\d+$/] *)
Definition re_id : regex := Plus (Cls is_digit).

(** [/^[a-zA-Z\s]+$/] *)
Definition re_name : regex :=
  Plus (Cls (fun c => is_letter c || is_space c)).

(** [[^\s@]] *)
Definition not_space_at (c : ascii) : bool :=
  negb (is_space c || Ascii.eqb c "@").

(** [/^[^\s@]+@[^\s@]+\.[^\s@]+$/] *)
Definition re_email : regex :=
  Cat (Plus (Cls not_space_at))
    (Cat (Chr "@")
       (Cat (Plus (Cls not_space_at))
          (Cat (Chr ".") (Plus (Cls not_space_at))))).

(** [Object.keys(newErrors).length] *)
Definition keys_length (e : Errors.t) : nat :=
  let key {A : Type} (v : option A) : nat :=
    match v with Some _ => 1 | None => 0 end in
  key (Errors.id e) + key (Errors.name e) + key (Errors.email e).

(** The object [newErrors] that [validateForm] builds and hands to
    [setErrors]. *)
Definition newErrors (formData : FormData) : Errors.t :=
  {| Errors.id :=
       if negb (truthy (trim (id formData)))
       then Some "ID is required"%string
       else if negb (test re_id (id formData))
       then Some "ID must be numeric"%string
       else None;
     Errors.name :=
       if negb (truthy (trim (name formData)))
       then Some "Name is required"%string
       else if negb (test re_name (name formData))
       then Some "Name must contain only letters"%string
       else None;
     Errors.email :=
       if truthy (email formData) && negb (test re_email (email formData))
       then Some "Invalid email format"%string
       else None |}.

(** [validateForm()]: its return value, whether the submission goes on. *)
Definition validateForm (formData : FormData) : bool :=
  (keys_length (newErrors formData) =? 0)%nat.

End AddPerson.

(** ** The duration of a stay: the attendance page *)

Module MarkAttendance.

Import Js.

Local Open Scope Z_scope.

(** The first three elements of [t.split(':').map(Number)], when all three
    are there and within the model of [Number]. *)
Definition hms_fields (t : string) : option (Z * Z * Z) :=
  match map Number (split ":" t) with
  | Some hours :: Some minutes :: Some seconds :: _ =>
      Some (hours, minutes, seconds)
  | _ => None
  end.

(** [calculateDuration(clockIn, clockOut)].  [Math.floor(a / b)] on integers
    is the floor division of [Z], and [%] is the remainder with the sign of
    the dividend, [Z.rem]. *)
Definition calculateDuration (clockIn clockOut : string) : option string :=
  match hms_fields clockIn, hms_fields clockOut with
  | Some (inHours, inMinutes, inSeconds),
    Some (outHours, outMinutes, outSeconds) =>
      let inTime := inHours * 3600 + inMinutes * 60 + inSeconds in
      let outTime := outHours * 3600 + outMinutes * 60 + outSeconds in
      let duration := outTime - inTime in
      let hours := duration / 3600 in
      let minutes := Z.rem duration 3600 / 60 in
      let seconds := Z.rem duration 60 in
      Some (padStart 2 "0" (toString hours) ++ ":"
            ++ padStart 2 "0" (toString minutes) ++ ":"
            ++ padStart 2 "0" (toString seconds))%string
  | _, _ => None
  end.

End MarkAttendance.

(** ** The vocabulary of the properties of the store *)

Module StoreSpec.

Import Store.

Local Open Scope Z_scope.

(** The identifiers of the roster, in order. *)
Definition ids (s : AttendanceState) : list string :=
  map Person.id (persons s).

(** How many entries of the roster carry the identifier [i]. *)
Definition occurrences (i : string) (s : AttendanceState) : nat :=
  List.length
    (filter (fun person => String.eqb (Person.id person) i) (persons s)).

(** Whether some entry of the roster carries the identifier [i]. *)
Definition in_roster (i : string) (s : AttendanceState) : bool :=
  existsb (fun person => String.eqb (Person.id person) i) (persons s).

(** The number of AddPerson actions in a sequence of dispatches. *)
Fixpoint count_adds (ds : list Dispatch) : Z :=
  match ds with
  | [] => 0
  | (_, ADD_PERSON _) :: rest => count_adds rest + 1
  | _ :: rest => count_adds rest
  end.

(** The number of DeletePerson actions in a sequence of dispatches. *)
Fixpoint count_deletes (ds : list Dispatch) : Z :=
  match ds with
  | [] => 0
  | (_, DELETE_PERSON _) :: rest => count_deletes rest + 1
  | _ :: rest => count_deletes rest
  end.

(** The number of DeletePerson actions of [ds], dispatched from [s] on, whose
    identifier matched at least one entry of the roster they were applied
    to. *)
Fixpoint count_hits (s : AttendanceState) (ds : list Dispatch) : Z :=
  match ds with
  | [] => 0
  | (now, action) :: rest =>
      match action with
      | DELETE_PERSON i => if in_roster i s then 1 else 0
      | _ => 0
      end + count_hits (attendanceReducer now s action) rest
  end.

(** The number of roster entries that the DeletePerson actions of [ds],
    dispatched from [s] on, matched in the roster they were applied to. *)
Fixpoint count_removed (s : AttendanceState) (ds : list Dispatch) : Z :=
  match ds with
  | [] => 0
  | (now, action) :: rest =>
      match action with
      | DELETE_PERSON i => Z.of_nat (occurrences i s)
      | _ => 0
      end + count_removed (attendanceReducer now s action) rest
  end.

(** No two entries of the roster share an identifier, in [s] and in every
    state that the dispatches [ds] lead through. *)
Fixpoint unique_along (s : AttendanceState) (ds : list Dispatch) : Prop :=
  NoDup (ids s) /\
  match ds with
  | [] => True
  | (now, action) :: rest => unique_along (attendanceReducer now s action) rest
  end.

(** An action that cannot introduce a shared identifier: an AddPerson whose
    identifier is not in the roster yet, an UpdatePerson whose patch leaves
    the identifier alone, and every other action. *)
Definition keeps_ids (s : AttendanceState) (action : AttendanceAction)
  : bool :=
  match action with
  | ADD_PERSON payload => negb (in_roster (Person.id payload) s)
  | UPDATE_PERSON i updates =>
      match PartialPerson.id updates with
      | None => true
      | Some j => String.eqb j i
      end
  | _ => true
  end.

Fixpoint keeps_ids_all (s : AttendanceState) (ds : list Dispatch) : bool :=
  match ds with
  | [] => true
  | (now, action) :: rest =>
      keeps_ids s action && keeps_ids_all (attendanceReducer now s action) rest
  end.

(** An optional property is set: it is there, whatever its value. *)
Definition is_set {A : Type} (v : option A) : bool :=
  match v with
  | Some _ => true
  | None => false
  end.

(** A person that shares the identifier of the first seeded person. *)
Definition second_1 : Person.t :=
  Person.mk "1" "Bhavana" None None (Some 101) true 1700000000000.

(** A patch that renames. *)
Definition rename (n : string) : PartialPerson.t :=
  PartialPerson.mk None (Some n) None None None None None.

(** An optional string is there and not empty. *)
Definition non_empty (v : option string) : Prop :=
  exists t : string, v = Some t /\ t <> EmptyString.

(** A fourth person, with an identifier of its own. *)
Definition fourth : Person.t :=
  Person.mk "4" "Charan" None (Some "Design"%string) (Some 101) true
    1700000000000.

(** A clock-in as the attendance page dispatches it. *)
Definition clock_in_9 : AttendanceRecord.t :=
  AttendanceRecord.mk "1700000000000" "1" "Abhinav" "2023-11-14"
    (Some "09:00:00"%string) None None Present (Some 93).

(** A record whose clock-in time is there and empty. *)
Definition empty_clock_in : AttendanceRecord.t :=
  AttendanceRecord.mk "r1" "1" "Abhinav" "2024-01-01" (Some ""%string) None
    None Present None.

End StoreSpec.

(** ** The vocabulary of the properties of the two page functions *)

Module PageSpec.

Import Js.

(** The words that a regular expression matches as a whole. *)
Inductive lang : regex -> list ascii -> Prop :=
| lang_eps : lang Eps []
| lang_cls p c : p c = true -> lang (Cls p) [c]
| lang_cat r1 r2 w1 w2 :
    lang r1 w1 -> lang r2 w2 -> lang (Cat r1 r2) (w1 ++ w2)
| lang_alt_l r1 r2 w : lang r1 w -> lang (Alt r1 r2) w
| lang_alt_r r1 r2 w : lang r2 w -> lang (Alt r1 r2) w
| lang_star_nil r : lang (Star r) []
| lang_star_app r w1 w2 :
    lang r w1 -> lang (Star r) w2 -> lang (Star r) (w1 ++ w2).

(** Every character of [s] satisfies [p]. *)
Definition all_chars (p : ascii -> bool) (s : string) : bool :=
  forallb p (list_ascii_of_string s).

(** Some character of [s] satisfies [p]. *)
Definition some_char (p : ascii -> bool) (s : string) : bool :=
  existsb p (list_ascii_of_string s).

(** Non-empty and all digits. *)
Definition numeric_id (s : string) : Prop :=
  s <> EmptyString /\ all_chars is_digit s = true.

(** Non-empty and only letters and white space. *)
Definition letters_and_spaces (s : string) : Prop :=
  s <> EmptyString
  /\ all_chars (fun c => is_letter c || is_space c) s = true.

(** Not blank: some character is not white space. *)
Definition not_blank (s : string) : Prop :=
  some_char (fun c => negb (is_space c)) s = true.

(** A non-empty piece of an address: no white space and no [@] in it. *)
Definition address_part (s : string) : Prop :=
  s <> EmptyString /\ all_chars AddPerson.not_space_at s = true.

(** The basic shape [local@domain.tld]. *)
Definition email_shape (s : string) : Prop :=
  exists local domain tld : string,
    s = (local ++ "@" ++ domain ++ "." ++ tld)%string
    /\ address_part local /\ address_part domain /\ address_part tld.

(** What the specification says a submission needs to be accepted. *)
Definition stated_valid (f : AddPerson.FormData) : Prop :=
  numeric_id (AddPerson.id f)
  /\ letters_and_spaces (AddPerson.name f)
  /\ (AddPerson.email f = EmptyString \/ email_shape (AddPerson.email f)).

(** The same with a name that is not blank either. *)
Definition valid (f : AddPerson.FormData) : Prop :=
  numeric_id (AddPerson.id f)
  /\ (letters_and_spaces (AddPerson.name f) /\ not_blank (AddPerson.name f))
  /\ (AddPerson.email f = EmptyString \/ email_shape (AddPerson.email f)).

Local Open Scope Z_scope.

(** The character of a decimal digit [0 <= k < 10]. *)
Definition digit_char (k : Z) : ascii := ascii_of_nat (48 + Z.to_nat k).

(** A number [0 <= n < 100] as two decimal digits, a leading zero if need
    be. *)
Definition two_digits (n : Z) : string :=
  String (digit_char (n / 10)) (String (digit_char (n mod 10)) EmptyString).

(** A well-formed [HH:MM:SS] string. *)
Definition hms (h m s : Z) : string :=
  (two_digits h ++ ":" ++ two_digits m ++ ":" ++ two_digits s)%string.

(** The seconds from midnight to a clock time. *)
Definition seconds_of (h m s : Z) : Z := h * 3600 + m * 60 + s.

(** The zero-padded [HH:MM:SS] rendering of a number of seconds. *)
Definition render_seconds (d : Z) : string :=
  hms (d / 3600) (d mod 3600 / 60) (d mod 60).

(** The fields of a clock time that is written with two digits each. *)
Definition clock_fields (h m s : Z) : Prop :=
  0 <= h < 100 /\ 0 <= m < 60 /\ 0 <= s < 60.

End PageSpec.

(** ** The dashboard: what it derives from the state *)

Module Dashboard.

Import Store.

Local Open Scope Z_scope.

(** [a.slice(start)], the end left out: from the index [start], counted from
    the end of the array when negative, clamped to the array. *)
Definition slice {A : Type} (start : Z) (a : list A) : list A :=
  let len := Z.of_nat (List.length a) in
  let k := if start <? 0 then Z.max (len + start) 0 else Z.min start len in
  skipn (Z.to_nat k) a.

(** [state.attendanceRecords.slice(-5).reverse()]; [reverse] works in place
    on the copy that [slice] returns, the state keeps its order. *)
Definition recentAttendance (state : AttendanceState)
  : list AttendanceRecord.t :=
  rev (slice (-5) (attendanceRecords state)).

(** The value of the card 'Active Sessions'. *)
Definition activeSessions (state : AttendanceState) : Z :=
  if CurrentSession.isActive (currentSession state) then 1 else 0.

End Dashboard.

(** ** The training page: [src/pages/TrainImages.tsx] *)

Module TrainImages.

Import Store.

Local Open Scope Z_scope.

(** [n || 0] for [n : number | undefined]: [undefined] and [0] are falsy. *)
Definition or_zero (n : option Z) : Z :=
  match n with
  | Some v => if v =? 0 then 0 else v
  | None => 0
  end.

(** [state.persons.filter(p => p.isActive)] *)
Definition activePersons (state : AttendanceState) : list Person.t :=
  filter (fun p => Person.isActive p) (persons state).

(** [activePersons.reduce((sum, person) => sum + (person.imageCount || 0), 0)] *)
Definition totalImages (state : AttendanceState) : Z :=
  fold_left (fun sum person => sum + or_zero (Person.imageCount person))
            (activePersons state) 0.

(** The [disabled] property of the button 'Start Training'. *)
Definition startDisabled (state : AttendanceState) : bool :=
  (List.length (activePersons state) =? 0)%nat.

End TrainImages.

(** ** The registration page: capture and save, [src/pages/AddPerson.tsx] *)

Module AddPersonPage.

Import Store.

Local Open Scope Z_scope.

Definition totalImages : Z := 101.

(** [s || undefined] for a string [s]. *)
Definition or_undefined (s : string) : option string :=
  if Js.truthy s then Some s else None.

(** The object [newPerson] of [handleSavePerson]; [now] is its
    [new Date()]. *)
Definition newPerson (now : Date) (formData : AddPerson.FormData)
  : Person.t :=
  {| Person.id := AddPerson.id formData;
     Person.name := AddPerson.name formData;
     Person.email := or_undefined (AddPerson.email formData);
     Person.department := or_undefined (AddPerson.department formData);
     Person.imageCount := Some totalImages;
     Person.isActive := true;
     Person.createdAt := now |}.

(** The page while it captures: the component's state as far as the capture
    handlers read and write it, the store behind [dispatch], the messages
    shown by [alert], oldest first, and whether [navigate('/')] has run.
    [interval] tells whether [intervalRef.current] is a timer that still
    fires.  The camera stream and the canvas hold no state of the logic.
    The timer's callback keeps the [handleSavePerson] of the render in which
    'Start Capture' was pressed, hence the form that was validated: that is
    the [formData] here. *)
Record Page := mkPage {
  formData : AddPerson.FormData;
  isCapturing : bool;
  capturedImages : Z;
  showCamera : bool;
  interval : bool;
  store : AttendanceState;
  alerts : list string;
  navigated : bool
}.

(** [stopCamera()] *)
Definition stopCamera (page : Page) : Page :=
  {| formData := formData page;
     isCapturing := false;
     capturedImages := capturedImages page;
     showCamera := false;
     interval := false;
     store := store page;
     alerts := alerts page;
     navigated := navigated page |}.

(** [handleSavePerson()] *)
Definition handleSavePerson (now : Date) (page : Page) : Page :=
  let saved :=
    {| formData := formData page;
       isCapturing := isCapturing page;
       capturedImages := capturedImages page;
       showCamera := showCamera page;
       interval := interval page;
       store :=
         attendanceReducer now (store page)
           (ADD_PERSON (newPerson now (formData page)));
       alerts :=
         alerts page
         ++ [("Images saved for ID: " ++ AddPerson.id (formData page)
              ++ ", Name: " ++ AddPerson.name (formData page))%string];
       navigated := navigated page |} in
  let stopped := stopCamera saved in
  {| formData := formData stopped;
     isCapturing := isCapturing stopped;
     capturedImages := capturedImages stopped;
     showCamera := showCamera stopped;
     interval := interval stopped;
     store := store stopped;
     alerts := alerts stopped;
     navigated := true |}.

(** [startCapturing()] *)
Definition startCapturing (page : Page) : Page :=
  if negb (AddPerson.validateForm (formData page))
  then
    {| formData := formData page;
       isCapturing := isCapturing page;
       capturedImages := capturedImages page;
       showCamera := showCamera page;
       interval := interval page;
       store := store page;
       alerts :=
         alerts page ++ ["Please fill in all required fields correctly"%string];
       navigated := navigated page |}
  else
    {| formData := formData page;
       isCapturing := true;
       capturedImages := 0;
       showCamera := showCamera page;
       interval := true;
       store := store page;
       alerts := alerts page;
       navigated := navigated page |}.

(** One firing of the timer that [startCapturing] sets, at the clock reading
    [now]; a timer that was cleared does not fire.  The count that the
    updater returns is stored after the save, if any, has run. *)
Definition tick (now : Date) (page : Page) : Page :=
  if interval page
  then
    let newCount := capturedImages page + 1 in
    let after :=
      if newCount >=? totalImages
      then
        handleSavePerson now
          {| formData := formData page;
             isCapturing := false;
             capturedImages := capturedImages page;
             showCamera := showCamera page;
             interval := false;
             store := store page;
             alerts := alerts page;
             navigated := navigated page |}
      else page in
    {| formData := formData after;
       isCapturing := isCapturing after;
       capturedImages := newCount;
       showCamera := showCamera after;
       interval := interval after;
       store := store after;
       alerts := alerts after;
       navigated := navigated after |}
  else page.

(** The handler of the button 'Stop Capture'. *)
Definition stopCapture (page : Page) : Page :=
  {| formData := formData page;
     isCapturing := false;
     capturedImages := capturedImages page;
     showCamera := showCamera page;
     interval := false;
     store := store page;
     alerts := alerts page;
     navigated := navigated page |}.

(** The timer firing once at each of the clock readings [times], in order. *)
Fixpoint ticks (times : list Date) (page : Page) : Page :=
  match times with
  | [] => page
  | now :: rest => ticks rest (tick now page)
  end.

(** The page as it is mounted over a store, the form filled in and the
    camera on. *)
Definition mounted (f : AddPerson.FormData) (s : AttendanceState) : Page :=
  mkPage f false 0 true false s [] false.

End AddPersonPage.

(** ** The attendance page: its handlers *)

Module MarkAttendancePage.

Import Store.

Local Open Scope Z_scope.

(** What the clock gives during one run of a handler: [Date.now()], and
    [new Date()] as [format] of the date library renders it with the
    patterns ['yyyy-MM-dd'] and ['HH:mm:ss']. *)
Record Clock := mkClock {
  ms : Z;
  today : string;
  time : string
}.

(** How a handler ends: it returns, having left the store as given and shown
    an alert or none; or it throws a TypeError; or it needs a [Number(s)]
    that is outside the model. *)
Inductive Run :=
| Done (state : AttendanceState) (alert : option string)
| TypeError
| Unmodelled.

(** [handleStartSession()]; [lectureDuration] and [now] are the component's
    input field and the reducer's clock reading.  Hiding the dialog and
    starting the camera write no state of the store. *)
Definition handleStartSession (now : Date) (lectureDuration : string)
  (state : AttendanceState) : Run :=
  if negb (Js.truthy lectureDuration)
  then Done state (Some "Please enter lecture duration"%string)
  else
    Done (attendanceReducer now state
            (START_ATTENDANCE_SESSION lectureDuration))
         None.

(** The object [record] of [handleClockIn]. *)
Definition clockInRecord (clock : Clock) (detectedPerson : Person.t)
  (confidence : Z) : AttendanceRecord.t :=
  {| AttendanceRecord.id := Js.toString (ms clock);
     AttendanceRecord.personId := Person.id detectedPerson;
     AttendanceRecord.personName := Person.name detectedPerson;
     AttendanceRecord.date := today clock;
     AttendanceRecord.clockInTime := Some (time clock);
     AttendanceRecord.clockOutTime := None;
     AttendanceRecord.duration := None;
     AttendanceRecord.status := Present;
     AttendanceRecord.confidence := Some confidence |}.

(** [handleClockIn()] *)
Definition handleClockIn (clock : Clock) (detectedPerson : option Person.t)
  (confidence : Z) (state : AttendanceState) : Run :=
  match detectedPerson with
  | None => Done state None
  | Some person =>
      Done (attendanceReducer (ms clock) state
              (ADD_ATTENDANCE_RECORD (clockInRecord clock person confidence)))
           (Some (Person.name person ++ " clocked in successfully!")%string)
  end.

(** The object [updates] of [handleClockOut]. *)
Definition clockOutUpdates (clockOutTime duration : string)
  : PartialAttendanceRecord.t :=
  {| PartialAttendanceRecord.id := None;
     PartialAttendanceRecord.personId := None;
     PartialAttendanceRecord.personName := None;
     PartialAttendanceRecord.date := None;
     PartialAttendanceRecord.clockInTime := None;
     PartialAttendanceRecord.clockOutTime := Some (Some clockOutTime);
     PartialAttendanceRecord.duration := Some (Some duration);
     PartialAttendanceRecord.status := None;
     PartialAttendanceRecord.confidence := None |}.

(** The [existingRecord] of [handleClockOut]: the first record of the person
    with today's date. *)
Definition existingRecord (clock : Clock) (person : Person.t)
  (state : AttendanceState) : option AttendanceRecord.t :=
  find (fun record =>
          String.eqb (AttendanceRecord.personId record) (Person.id person)
          && String.eqb (AttendanceRecord.date record) (today clock))
       (attendanceRecords state).

(** [handleClockOut()].  [existingRecord.clockInTime!] only silences the type
    checker: on a record without a clock-in time [calculateDuration] calls
    [split] on [undefined], which throws. *)
Definition handleClockOut (clock : Clock) (detectedPerson : option Person.t)
  (state : AttendanceState) : Run :=
  match detectedPerson with
  | None => Done state None
  | Some person =>
      match existingRecord clock person state with
      | Some existing =>
          let clockOutTime := time clock in
          match AttendanceRecord.clockInTime existing with
          | None => TypeError
          | Some clockIn =>
              match MarkAttendance.calculateDuration clockIn clockOutTime with
              | None => Unmodelled
              | Some duration =>
                  Done (attendanceReducer (ms clock) state
                          (UPDATE_ATTENDANCE_RECORD
                             (AttendanceRecord.id existing)
                             (clockOutUpdates clockOutTime duration)))
                       (Some (Person.name person
                              ++ " clocked out successfully!")%string)
              end
          end
      | None => Done state (Some "No clock-in record found for today"%string)
      end
  end.

(** [handleSaveAttendance()] *)
Definition handleSaveAttendance (now : Date) (state : AttendanceState)
  : Run :=
  Done (attendanceReducer now state END_ATTENDANCE_SESSION)
       (Some "Attendance saved successfully!"%string).

End MarkAttendancePage.

(** ** The application as its pages drive the store *)

Module App.

Import Store.

(** What a user can make the pages do to the store: run a capture of the
    registration page to its end on a form, and press the four buttons of
    the attendance page, with whoever is detected at that moment. *)
Inductive Event :=
| Capture (now : Date) (f : AddPerson.FormData)
| StartSession (now : Date) (lectureDuration : string)
| ClockIn (clock : MarkAttendancePage.Clock) (detected : option Person.t)
    (confidence : Z)
| ClockOut (clock : MarkAttendancePage.Clock) (detected : option Person.t)
| SaveAttendance (now : Date).

(** 'Start Capture' on the mounted registration page and 101 firings of its
    timer. *)
Definition capture (now : Date) (f : AddPerson.FormData)
  (state : AttendanceState) : AttendanceState :=
  AddPersonPage.store
    (AddPersonPage.ticks (repeat now 101)
       (AddPersonPage.startCapturing (AddPersonPage.mounted f state))).

Definition handle (e : Event) (state : AttendanceState)
  : MarkAttendancePage.Run :=
  match e with
  | Capture now f => MarkAttendancePage.Done (capture now f state) None
  | StartSession now d => MarkAttendancePage.handleStartSession now d state
  | ClockIn clock detected confidence =>
      MarkAttendancePage.handleClockIn clock detected confidence state
  | ClockOut clock detected =>
      MarkAttendancePage.handleClockOut clock detected state
  | SaveAttendance now => MarkAttendancePage.handleSaveAttendance now state
  end.

(** The store after a sequence of events, as long as no handler throws or
    leaves the model. *)
Fixpoint run (state : AttendanceState) (es : list Event)
  : option AttendanceState :=
  match es with
  | [] => Some state
  | e :: rest =>
      match handle e state with
      | MarkAttendancePage.Done state' _ => run state' rest
      | _ => None
      end
  end.

End App.

(** ** The vocabulary of the further properties *)

Module MoreSpec.

Import Store.

Local Open Scope Z_scope.

(** The three actions that patch by identifier. *)
Definition is_update (a : AttendanceAction) : bool :=
  match a with
  | UPDATE_PERSON _ _ | UPDATE_ATTENDANCE_RECORD _ _
  | UPDATE_TRAINING_SESSION _ _ => true
  | _ => false
  end.

(** The number of AddAttendanceRecord actions in a sequence of dispatches. *)
Fixpoint count_records (ds : list Dispatch) : Z :=
  match ds with
  | [] => 0
  | (_, ADD_ATTENDANCE_RECORD _) :: rest => count_records rest + 1
  | _ :: rest => count_records rest
  end.

(** The number of StartTrainingSession actions in a sequence of dispatches. *)
Fixpoint count_trainings (ds : list Dispatch) : Z :=
  match ds with
  | [] => 0
  | (_, START_TRAINING_SESSION _) :: rest => count_trainings rest + 1
  | _ :: rest => count_trainings rest
  end.

(** Whether the last session action of a sequence of dispatches, if there is
    one, is a start ([Some true]) or an end ([Some false]). *)
Fixpoint last_session (ds : list Dispatch) : option bool :=
  match ds with
  | [] => None
  | (_, a) :: rest =>
      match last_session rest with
      | Some b => Some b
      | None =>
          match a with
          | START_ATTENDANCE_SESSION _ => Some true
          | END_ATTENDANCE_SESSION => Some false
          | _ => None
          end
      end
  end.

(** A clock reading whose time of day is written [HH:MM:SS]. *)
Definition timed (clock : MarkAttendancePage.Clock) : Prop :=
  exists h m s,
    PageSpec.clock_fields h m s
    /\ MarkAttendancePage.time clock = PageSpec.hms h m s.

(** The events whose clock readings are so written. *)
Definition well_timed (e : App.Event) : Prop :=
  match e with
  | App.ClockIn clock _ _ | App.ClockOut clock _ => timed clock
  | _ => True
  end.

(** The record [r] with a clock-out time and a duration written into it. *)
Definition closed (r : AttendanceRecord.t) (clockOutTime duration : string)
  : AttendanceRecord.t :=
  {| AttendanceRecord.id := AttendanceRecord.id r;
     AttendanceRecord.personId := AttendanceRecord.personId r;
     AttendanceRecord.personName := AttendanceRecord.personName r;
     AttendanceRecord.date := AttendanceRecord.date r;
     AttendanceRecord.clockInTime := AttendanceRecord.clockInTime r;
     AttendanceRecord.clockOutTime := Some clockOutTime;
     AttendanceRecord.duration := Some duration;
     AttendanceRecord.status := AttendanceRecord.status r;
     AttendanceRecord.confidence := AttendanceRecord.confidence r |}.

(** The record [r] is one of the person [p] on the day of [clock]. *)
Definition of_today (clock : MarkAttendancePage.Clock) (p : Person.t)
  (r : AttendanceRecord.t) : Prop :=
  AttendanceRecord.personId r = Person.id p
  /\ AttendanceRecord.date r = MarkAttendancePage.today clock.

(** What holds of the store as long as only the pages drive it. *)
Definition page_invariant (s : AttendanceState) : Prop :=
  Statistics.totalPersons (statistics s) = Z.of_nat (List.length (persons s))
  /\ Statistics.totalClockOuts (statistics s) = 0
  /\ Statistics.totalClockIns (statistics s)
     = Z.of_nat (List.length (attendanceRecords s))
  /\ Statistics.presentToday (statistics s)
     = Z.of_nat (List.length (attendanceRecords s))
  /\ trainingSessions s = []
  /\ (forall q, In q (persons s) -> Person.isActive q = true)
  /\ (forall r, In r (attendanceRecords s) ->
        exists h m sec,
          PageSpec.clock_fields h m sec
          /\ AttendanceRecord.clockInTime r = Some (PageSpec.hms h m sec)).

(** The registration page in the middle of a capture, [k] images taken. *)
Definition capturing (f : AddPerson.FormData) (k : Z) (cam : bool)
  (s : AttendanceState) (al : list string) (nv : bool) : AddPersonPage.Page :=
  AddPersonPage.mkPage f true k cam true s al nv.

(** How often the character [c] occurs in [s]. *)
Fixpoint count_char (c : ascii) (s : string) : nat :=
  match s with
  | EmptyString => 0
  | String c' s' => (if Ascii.eqb c' c then 1 else 0) + count_char c s'
  end%nat.

End MoreSpec.

(** ** The reducer on the values that reach it at run time

    The types of [AttendanceAction] are erased when the program runs:
    [dispatch] hands the reducer whatever it is given.  This second embedding
    of [attendanceReducer] runs it on such values, with the property accesses
    that throw written out.  The values are [undefined], [null], booleans,
    integers, strings, dates and plain objects (own data properties with
    string keys, no prototype of their own); arrays, functions, accessors and
    proxies are not among them. *)

Module Raw.

Local Open Scope Z_scope.

#[local] Set Warnings "-register-all".

Inductive value :=
| Undefined
| Null
| Bool (b : bool)
| Num (n : Z)
| Str (s : string)
| DateV (t : Store.Date)
| Obj (props : list (string * value)).

(** What evaluating an expression comes to: a value, a thrown [TypeError],
    or a question that the model does not answer. *)
Inductive outcome (A : Type) :=
| Returns (a : A)
| TypeError
| Unmodelled.

Arguments Returns {A} a.
Arguments TypeError {A}.
Arguments Unmodelled {A}.

Definition bind {A B : Type} (c : outcome A) (k : A -> outcome B)
  : outcome B :=
  match c with
  | Returns a => k a
  | TypeError => TypeError
  | Unmodelled => Unmodelled
  end.

Notation "x <- c ;; k" := (bind c (fun x => k))
  (at level 61, c at next level, right associativity).

(** The properties of an object are a list of bindings; the first binding of
    a key is the one that counts. *)
Fixpoint lookup (k : string) (props : list (string * value)) : value :=
  match props with
  | [] => Undefined
  | (k', v) :: rest => if String.eqb k' k then v else lookup k rest
  end.

(** [v.k] for the keys that the reducer reads ([type], [payload], [id],
    [updates], [lectureDuration], [clockInTime], [clockOutTime], [status]):
    reading a property of [undefined] or [null] throws, an object gives its
    binding or [undefined], and no primitive or date has such a property. *)
Definition get (v : value) (k : string) : outcome value :=
  match v with
  | Undefined | Null => TypeError
  | Obj props => Returns (lookup k props)
  | _ => Returns Undefined
  end.

(** Truthiness. *)
Definition truthy (v : value) : bool :=
  match v with
  | Undefined | Null => false
  | Bool b => b
  | Num n => negb (n =? 0)
  | Str s => negb (String.eqb s "")
  | DateV _ | Obj _ => true
  end.

(** [a === b].  Two objects are equal when they are one and the same object,
    which their properties do not tell. *)
Definition strict_eq (a b : value) : outcome bool :=
  match a, b with
  | Undefined, Undefined => Returns true
  | Null, Null => Returns true
  | Bool x, Bool y => Returns (Bool.eqb x y)
  | Num x, Num y => Returns (x =? y)
  | Str x, Str y => Returns (String.eqb x y)
  | DateV _, DateV _ | DateV _, Obj _ | Obj _, DateV _ | Obj _, Obj _ =>
      Unmodelled
  | _, _ => Returns false
  end.

(** [o[k] = v] on the bindings of [o]. *)
Fixpoint set (k : string) (v : value) (props : list (string * value))
  : list (string * value) :=
  match props with
  | [] => [(k, v)]
  | (k', v') :: rest =>
      if String.eqb k' k then (k, v) :: rest else (k', v') :: set k v rest
  end.

(** The bindings that count, each key once. *)
Fixpoint own (seen : list string) (props : list (string * value))
  : list (string * value) :=
  match props with
  | [] => []
  | (k, v) :: rest =>
      if existsb (String.eqb k) seen then own seen rest
      else (k, v) :: own (k :: seen) rest
  end.

(** The characters of a string as the properties "0", "1", ... *)
Fixpoint index_props (i : Z) (s : string) : list (string * value) :=
  match s with
  | EmptyString => []
  | String c s' =>
      (Js.toString i, Str (String c EmptyString)) :: index_props (i + 1) s'
  end.

(** The own enumerable properties that a spread copies. *)
Definition spreadable (v : value) : list (string * value) :=
  match v with
  | Obj props => own [] props
  | Str s => index_props 0 s
  | _ => []
  end.

(** [{ ...a, ...b }] *)
Definition spread2 (a b : value) : value :=
  Obj (fold_left (fun acc kv => set (fst kv) (snd kv) acc) (spreadable b)
         (fold_left (fun acc kv => set (fst kv) (snd kv) acc) (spreadable a)
            [])).

(** [a.map(f)] and [a.filter(f)] with a callback that may throw. *)
Fixpoint mapM (f : value -> outcome value) (a : list value)
  : outcome (list value) :=
  match a with
  | [] => Returns []
  | x :: rest =>
      y <- f x ;;
      ys <- mapM f rest ;;
      Returns (y :: ys)
  end.

Fixpoint filterM (f : value -> outcome bool) (a : list value)
  : outcome (list value) :=
  match a with
  | [] => Returns []
  | x :: rest =>
      keep <- f x ;;
      ys <- filterM f rest ;;
      Returns (if keep then x :: ys else ys)
  end.

Module Session.
Record t := mk {
  isActive : bool;
  lectureDuration : value;
  startTime : option Store.Date
}.
End Session.

(** The state: its five components are there in every state that the
    reducer returns, and the statistics stay numbers; what the collections
    and the session hold is whatever the actions brought. *)
Record AttendanceState := mkState {
  persons : list value;
  attendanceRecords : list value;
  trainingSessions : list value;
  currentSession : Session.t;
  statistics : Store.Statistics.t
}.

(** [attendanceReducer(state, action)] *)
Definition attendanceReducer (now : Store.Date) (state : AttendanceState)
  (action : value) : outcome AttendanceState :=
  type <- get action "type" ;;
  match type with
  | Str t =>
      if String.eqb t "ADD_PERSON" then
        payload <- get action "payload" ;;
        Returns
          {| persons := persons state ++ [payload];
             attendanceRecords := attendanceRecords state;
             trainingSessions := trainingSessions state;
             currentSession := currentSession state;
             statistics :=
               {| Store.Statistics.totalPersons :=
                    Store.Statistics.totalPersons (statistics state) + 1;
                  Store.Statistics.presentToday :=
                    Store.Statistics.presentToday (statistics state);
                  Store.Statistics.totalClockIns :=
                    Store.Statistics.totalClockIns (statistics state);
                  Store.Statistics.totalClockOuts :=
                    Store.Statistics.totalClockOuts (statistics state) |} |}
      else if String.eqb t "UPDATE_PERSON" then
        persons' <-
          mapM (fun person =>
                  personId <- get person "id" ;;
                  payload <- get action "payload" ;;
                  id <- get payload "id" ;;
                  same <- strict_eq personId id ;;
                  if same
                  then updates <- get payload "updates" ;;
                       Returns (spread2 person updates)
                  else Returns person)
               (persons state) ;;
        Returns
          {| persons := persons';
             attendanceRecords := attendanceRecords state;
             trainingSessions := trainingSessions state;
             currentSession := currentSession state;
             statistics := statistics state |}
      else if String.eqb t "DELETE_PERSON" then
        persons' <-
          filterM (fun person =>
                     personId <- get person "id" ;;
                     payload <- get action "payload" ;;
                     same <- strict_eq personId payload ;;
                     Returns (negb same))
                  (persons state) ;;
        Returns
          {| persons := persons';
             attendanceRecords := attendanceRecords state;
             trainingSessions := trainingSessions state;
             currentSession := currentSession state;
             statistics :=
               {| Store.Statistics.totalPersons :=
                    Store.Statistics.totalPersons (statistics state) - 1;
                  Store.Statistics.presentToday :=
                    Store.Statistics.presentToday (statistics state);
                  Store.Statistics.totalClockIns :=
                    Store.Statistics.totalClockIns (statistics state);
                  Store.Statistics.totalClockOuts :=
                    Store.Statistics.totalClockOuts (statistics state) |} |}
      else if String.eqb t "ADD_ATTENDANCE_RECORD" then
        newRecord <- get action "payload" ;;
        clockInTime <- get newRecord "clockInTime" ;;
        isClockIn <-
          (if truthy clockInTime
           then clockOutTime <- get newRecord "clockOutTime" ;;
                Returns (negb (truthy clockOutTime))
           else Returns false) ;;
        isClockOut <- get newRecord "clockOutTime" ;;
        status <- get newRecord "status" ;;
        present <- strict_eq status (Str "Present") ;;
        Returns
          {| persons := persons state;
             attendanceRecords := attendanceRecords state ++ [newRecord];
             trainingSessions := trainingSessions state;
             currentSession := currentSession state;
             statistics :=
               {| Store.Statistics.totalPersons :=
                    Store.Statistics.totalPersons (statistics state);
                  Store.Statistics.totalClockIns :=
                    if isClockIn
                    then Store.Statistics.totalClockIns (statistics state) + 1
                    else Store.Statistics.totalClockIns (statistics state);
                  Store.Statistics.totalClockOuts :=
                    if truthy isClockOut
                    then Store.Statistics.totalClockOuts (statistics state) + 1
                    else Store.Statistics.totalClockOuts (statistics state);
                  Store.Statistics.presentToday :=
                    if present
                    then Store.Statistics.presentToday (statistics state) + 1
                    else Store.Statistics.presentToday (statistics state) |} |}
      else if String.eqb t "UPDATE_ATTENDANCE_RECORD" then
        records' <-
          mapM (fun record =>
                  recordId <- get record "id" ;;
                  payload <- get action "payload" ;;
                  id <- get payload "id" ;;
                  same <- strict_eq recordId id ;;
                  if same
                  then updates <- get payload "updates" ;;
                       Returns (spread2 record updates)
                  else Returns record)
               (attendanceRecords state) ;;
        Returns
          {| persons := persons state;
             attendanceRecords := records';
             trainingSessions := trainingSessions state;
             currentSession := currentSession state;
             statistics := statistics state |}
      else if String.eqb t "START_TRAINING_SESSION" then
        payload <- get action "payload" ;;
        Returns
          {| persons := persons state;
             attendanceRecords := attendanceRecords state;
             trainingSessions := trainingSessions state ++ [payload];
             currentSession := currentSession state;
             statistics := statistics state |}
      else if String.eqb t "UPDATE_TRAINING_SESSION" then
        sessions' <-
          mapM (fun session =>
                  sessionId <- get session "id" ;;
                  payload <- get action "payload" ;;
                  id <- get payload "id" ;;
                  same <- strict_eq sessionId id ;;
                  if same
                  then updates <- get payload "updates" ;;
                       Returns (spread2 session updates)
                  else Returns session)
               (trainingSessions state) ;;
        Returns
          {| persons := persons state;
             attendanceRecords := attendanceRecords state;
             trainingSessions := sessions';
             currentSession := currentSession state;
             statistics := statistics state |}
      else if String.eqb t "START_ATTENDANCE_SESSION" then
        payload <- get action "payload" ;;
        lectureDuration <- get payload "lectureDuration" ;;
        Returns
          {| persons := persons state;
             attendanceRecords := attendanceRecords state;
             trainingSessions := trainingSessions state;
             currentSession :=
               {| Session.isActive := true;
                  Session.lectureDuration := lectureDuration;
                  Session.startTime := Some now |};
             statistics := statistics state |}
      else if String.eqb t "END_ATTENDANCE_SESSION" then
        Returns
          {| persons := persons state;
             attendanceRecords := attendanceRecords state;
             trainingSessions := trainingSessions state;
             currentSession :=
               {| Session.isActive := false;
                  Session.lectureDuration := Undefined;
                  Session.startTime := None |};
             statistics := statistics state |}
      else Returns state
  | _ => Returns state
  end.

(** *** The typed values as run-time values

    An object of one of the declared types has all the properties of its
    type, an optional one that is not there being [undefined]; a [Partial]
    has the properties that it sets. *)

Definition of_option {A : Type} (f : A -> value) (o : option A) : value :=
  match o with
  | Some a => f a
  | None => Undefined
  end.

(** A property of a [Partial], if it is set. *)
Definition partial {A : Type} (k : string) (f : A -> value) (o : option A)
  : list (string * value) :=
  match o with
  | Some a => [(k, f a)]
  | None => []
  end.

Definition of_status (st : Store.AttendanceStatus) : value :=
  match st with
  | Store.Present => Str "Present"
  | Store.Absent => Str "Absent"
  | Store.Late => Str "Late"
  | Store.MCR => Str "MCR"
  end.

Definition of_training_status (st : Store.TrainingStatus) : value :=
  match st with
  | Store.in_progress => Str "in-progress"
  | Store.completed => Str "completed"
  | Store.failed => Str "failed"
  end.

Definition of_person (p : Store.Person.t) : value :=
  Obj [ ("id", Str (Store.Person.id p));
        ("name", Str (Store.Person.name p));
        ("email", of_option Str (Store.Person.email p));
        ("department", of_option Str (Store.Person.department p));
        ("imageCount", of_option Num (Store.Person.imageCount p));
        ("isActive", Bool (Store.Person.isActive p));
        ("createdAt", DateV (Store.Person.createdAt p)) ]%string.

Definition of_partial_person (u : Store.PartialPerson.t) : value :=
  Obj (partial "id" Str (Store.PartialPerson.id u)
       ++ partial "name" Str (Store.PartialPerson.name u)
       ++ partial "email" (of_option Str) (Store.PartialPerson.email u)
       ++ partial "department" (of_option Str)
            (Store.PartialPerson.department u)
       ++ partial "imageCount" (of_option Num)
            (Store.PartialPerson.imageCount u)
       ++ partial "isActive" Bool (Store.PartialPerson.isActive u)
       ++ partial "createdAt" DateV (Store.PartialPerson.createdAt u)).

Definition of_record (r : Store.AttendanceRecord.t) : value :=
  Obj [ ("id", Str (Store.AttendanceRecord.id r));
        ("personId", Str (Store.AttendanceRecord.personId r));
        ("personName", Str (Store.AttendanceRecord.personName r));
        ("date", Str (Store.AttendanceRecord.date r));
        ("clockInTime", of_option Str (Store.AttendanceRecord.clockInTime r));
        ("clockOutTime",
         of_option Str (Store.AttendanceRecord.clockOutTime r));
        ("duration", of_option Str (Store.AttendanceRecord.duration r));
        ("status", of_status (Store.AttendanceRecord.status r));
        ("confidence", of_option Num (Store.AttendanceRecord.confidence r))
      ]%string.

Definition of_partial_record (u : Store.PartialAttendanceRecord.t) : value :=
  Obj (partial "id" Str (Store.PartialAttendanceRecord.id u)
       ++ partial "personId" Str (Store.PartialAttendanceRecord.personId u)
       ++ partial "personName" Str
            (Store.PartialAttendanceRecord.personName u)
       ++ partial "date" Str (Store.PartialAttendanceRecord.date u)
       ++ partial "clockInTime" (of_option Str)
            (Store.PartialAttendanceRecord.clockInTime u)
       ++ partial "clockOutTime" (of_option Str)
            (Store.PartialAttendanceRecord.clockOutTime u)
       ++ partial "duration" (of_option Str)
            (Store.PartialAttendanceRecord.duration u)
       ++ partial "status" of_status (Store.PartialAttendanceRecord.status u)
       ++ partial "confidence" (of_option Num)
            (Store.PartialAttendanceRecord.confidence u)).

Definition of_training (t : Store.TrainingSession.t) : value :=
  Obj [ ("id", Str (Store.TrainingSession.id t));
        ("personId", Str (Store.TrainingSession.personId t));
        ("personName", Str (Store.TrainingSession.personName t));
        ("imagesCaptured", Num (Store.TrainingSession.imagesCaptured t));
        ("totalImages", Num (Store.TrainingSession.totalImages t));
        ("status", of_training_status (Store.TrainingSession.status t));
        ("startTime", DateV (Store.TrainingSession.startTime t));
        ("endTime", of_option DateV (Store.TrainingSession.endTime t))
      ]%string.

Definition of_partial_training (u : Store.PartialTrainingSession.t) : value :=
  Obj (partial "id" Str (Store.PartialTrainingSession.id u)
       ++ partial "personId" Str (Store.PartialTrainingSession.personId u)
       ++ partial "personName" Str
            (Store.PartialTrainingSession.personName u)
       ++ partial "imagesCaptured" Num
            (Store.PartialTrainingSession.imagesCaptured u)
       ++ partial "totalImages" Num
            (Store.PartialTrainingSession.totalImages u)
       ++ partial "status" of_training_status
            (Store.PartialTrainingSession.status u)
       ++ partial "startTime" DateV
            (Store.PartialTrainingSession.startTime u)
       ++ partial "endTime" (of_option DateV)
            (Store.PartialTrainingSession.endTime u)).

Definition of_state (s : Store.AttendanceState) : AttendanceState :=
  {| persons := map of_person (Store.persons s);
     attendanceRecords := map of_record (Store.attendanceRecords s);
     trainingSessions := map of_training (Store.trainingSessions s);
     currentSession :=
       {| Session.isActive :=
            Store.CurrentSession.isActive (Store.currentSession s);
          Session.lectureDuration :=
            of_option Str
              (Store.CurrentSession.lectureDuration (Store.currentSession s));
          Session.startTime :=
            Store.CurrentSession.startTime (Store.currentSession s) |};
     statistics := Store.statistics s |}.

(** An action object: its [type] and, for all but two of the declared
    actions, its [payload]. *)
Definition action_object (type : string) (payload : option value) : value :=
  Obj (("type"%string, Str type) :: partial "payload" (fun v => v) payload).

Definition of_action (a : Store.AttendanceAction) : value :=
  action_object (Store.action_type a)
    match a with
    | Store.ADD_PERSON p => Some (of_person p)
    | Store.UPDATE_PERSON i u =>
        Some (Obj [("id", Str i); ("updates", of_partial_person u)]%string)
    | Store.DELETE_PERSON i => Some (Str i)
    | Store.ADD_ATTENDANCE_RECORD r => Some (of_record r)
    | Store.UPDATE_ATTENDANCE_RECORD i u =>
        Some (Obj [("id", Str i); ("updates", of_partial_record u)]%string)
    | Store.START_TRAINING_SESSION t => Some (of_training t)
    | Store.UPDATE_TRAINING_SESSION i u =>
        Some (Obj [("id", Str i); ("updates", of_partial_training u)]%string)
    | Store.START_ATTENDANCE_SESSION d =>
        Some (Obj [("lectureDuration", Str d)]%string)
    | Store.END_ATTENDANCE_SESSION => None
    | Store.UPDATE_STATISTICS => None
    end.

(** A payload that is not there. *)
Definition missing (payload : value) : Prop :=
  payload = Undefined \/ payload = Null.

End Raw.

(* ================================================================== *)
(** * Properties *)
(* ================================================================== *)

(** ** The store *)

Module StoreProps.

Import Store StoreSpec.

Local Open Scope Z_scope.

Section Lists.

Variables (A B : Type) (key : A -> string) (patch : A -> B -> A).

(** The shape of the three update cases of the reducer. *)
Let patch_by_id (i : string) (u : B) (l : list A) : list A :=
  map (fun e => if String.eqb (key e) i then patch e u else e) l.

Lemma patch_by_id_nth i u l k e :
  nth_error l k = Some e ->
  nth_error (patch_by_id i u l) k
  = Some (if String.eqb (key e) i then patch e u else e).
Proof.
  intros H. unfold patch_by_id.
  rewrite nth_error_map, H. reflexivity.
Qed.

Lemma patch_by_id_miss i u l :
  (forall e, In e l -> key e <> i) -> patch_by_id i u l = l.
Proof.
  unfold patch_by_id. induction l as [|e l IH]; intros H; simpl.
  - reflexivity.
  - destruct (String.eqb_spec (key e) i) as [E|_].
    + exfalso. apply (H e); [left; reflexivity | exact E].
    + f_equal. apply IH. intros e' He'. apply H. right. exact He'.
Qed.

End Lists.

(** *** Counters along a sequence of dispatches *)

Lemma totalPersons_step now s a :
  Statistics.totalPersons (statistics (attendanceReducer now s a))
  = Statistics.totalPersons (statistics s)
    + count_adds [(now, a)] - count_deletes [(now, a)].
Proof. destruct a; simpl; lia. Qed.

Lemma totalPersons_dispatchAll ds : forall s,
  Statistics.totalPersons (statistics (dispatchAll s ds))
  = Statistics.totalPersons (statistics s) + count_adds ds - count_deletes ds.
Proof.
  induction ds as [|[now a] ds IH]; intros s.
  - simpl. lia.
  - cbn [dispatchAll]. rewrite IH, totalPersons_step.
    destruct a; simpl; lia.
Qed.

Lemma roster_length_step now s a :
  Z.of_nat (List.length (persons (attendanceReducer now s a)))
  = Z.of_nat (List.length (persons s))
    + count_adds [(now, a)] - count_removed s [(now, a)].
Proof.
  destruct a; simpl; try lia.
  - rewrite length_app. simpl. lia.
  - rewrite length_map. lia.
  - unfold occurrences.
    pose proof (filter_length
                  (fun person => String.eqb (Person.id person) payload)
                  (persons s)).
    lia.
Qed.

Lemma roster_length_dispatchAll ds : forall s,
  Z.of_nat (List.length (persons (dispatchAll s ds)))
  = Z.of_nat (List.length (persons s)) + count_adds ds - count_removed s ds.
Proof.
  induction ds as [|[now a] ds IH]; intros s.
  - simpl. lia.
  - cbn [dispatchAll]. rewrite IH, roster_length_step.
    destruct a; simpl; lia.
Qed.

(** With unique identifiers an identifier occurs once or not at all. *)
Lemma occurrences_unique i s :
  NoDup (ids s) ->
  Z.of_nat (occurrences i s) = if in_roster i s then 1 else 0.
Proof.
  unfold ids, occurrences, in_roster.
  induction (persons s) as [|p l IH]; intros H; simpl.
  - reflexivity.
  - inversion H as [|x xs Hnotin Hnodup]; subst.
    destruct (String.eqb_spec (Person.id p) i) as [E|E]; simpl.
    + assert (Hnone : filter (fun q => String.eqb (Person.id q) i) l = []).
      { clear IH H Hnodup. induction l as [|q l IHl]; simpl; [reflexivity|].
        destruct (String.eqb_spec (Person.id q) i) as [Eq|_].
        - exfalso. apply Hnotin. simpl. left. congruence.
        - apply IHl. intros Hin. apply Hnotin. simpl. right. exact Hin. }
      rewrite Hnone. reflexivity.
    + apply IH. exact Hnodup.
Qed.

Lemma removed_is_hits ds : forall s,
  unique_along s ds -> count_removed s ds = count_hits s ds.
Proof.
  induction ds as [|[now a] ds IH]; intros s H.
  - reflexivity.
  - destruct H as [Hs Hrest]. cbn [count_removed count_hits].
    rewrite (IH _ Hrest). f_equal.
    destruct a; try reflexivity.
    apply occurrences_unique. exact Hs.
Qed.

(** *** Uniqueness of identifiers *)

Lemma in_roster_In i s : in_roster i s = true <-> In i (ids s).
Proof.
  unfold in_roster, ids. rewrite existsb_exists, in_map_iff.
  split; intros [p [H1 H2]]; exists p.
  - apply String.eqb_eq in H2. tauto.
  - split; [tauto|]. apply String.eqb_eq. tauto.
Qed.

Lemma NoDup_snoc (X : Type) (l : list X) (x : X) :
  NoDup (l ++ [x]) <-> NoDup l /\ ~ In x l.
Proof.
  split.
  - intros H. apply NoDup_remove in H. rewrite app_nil_r in H. exact H.
  - intros [H1 H2]. apply NoDup_rev in H1.
    rewrite <- (rev_involutive (l ++ [x])). apply NoDup_rev.
    rewrite rev_app_distr. simpl. constructor; [|exact H1].
    rewrite <- in_rev. exact H2.
Qed.

Lemma add_person_unique now s p :
  NoDup (ids s) ->
  NoDup (ids (attendanceReducer now s (ADD_PERSON p)))
  <-> ~ In (Person.id p) (ids s).
Proof.
  intros H. unfold ids. simpl. rewrite map_app. simpl.
  rewrite NoDup_snoc. tauto.
Qed.

Lemma NoDup_map_filter (X Y : Type) (f : X -> Y) (g : X -> bool) l :
  NoDup (map f l) -> NoDup (map f (filter g l)).
Proof.
  induction l as [|x l IH]; simpl; intros H; [exact H|].
  inversion H as [|y ys Hnotin Hnodup]; subst.
  destruct (g x); simpl; [|auto].
  constructor; [|auto].
  intros Hin. apply Hnotin. apply in_map_iff in Hin.
  destruct Hin as [z [Hz1 Hz2]]. apply filter_In in Hz2.
  apply in_map_iff. exists z. tauto.
Qed.

Lemma update_person_ids now s i u :
  keeps_ids s (UPDATE_PERSON i u) = true ->
  ids (attendanceReducer now s (UPDATE_PERSON i u)) = ids s.
Proof.
  unfold ids. simpl. intros H. rewrite map_map. apply map_ext.
  intros p. destruct (String.eqb_spec (Person.id p) i) as [E|E];
    [|reflexivity].
  simpl. destruct (PartialPerson.id u) as [j|]; simpl; [|reflexivity].
  apply String.eqb_eq in H. congruence.
Qed.

Lemma keeps_ids_unique now s a :
  keeps_ids s a = true -> NoDup (ids s) ->
  NoDup (ids (attendanceReducer now s a)).
Proof.
  intros Hk Hs. destruct a; try exact Hs.
  - apply add_person_unique; [exact Hs|].
    simpl in Hk. rewrite <- in_roster_In.
    destruct (in_roster (Person.id payload) s); [discriminate|congruence].
  - rewrite update_person_ids; assumption.
  - unfold ids. simpl. apply NoDup_map_filter. exact Hs.
Qed.

Lemma keeps_ids_all_unique ds : forall s,
  keeps_ids_all s ds = true -> NoDup (ids s) -> unique_along s ds.
Proof.
  induction ds as [|[now a] ds IH]; intros s Hk Hs; simpl.
  - tauto.
  - simpl in Hk. apply andb_true_iff in Hk. destruct Hk as [Hk1 Hk2].
    split; [exact Hs|]. apply IH; [exact Hk2|].
    apply keeps_ids_unique; assumption.
Qed.

Lemma unique_along_end ds : forall s,
  unique_along s ds -> NoDup (ids (dispatchAll s ds)).
Proof.
  induction ds as [|[now a] ds IH]; intros s H; simpl in *.
  - tauto.
  - apply IH. tauto.
Qed.

Lemma initialState_unique : NoDup (ids initialState).
Proof.
  unfold ids. simpl.
  repeat constructor; simpl; intuition discriminate.
Qed.

(** *** The claims about the store *)

(** C1, as stated, fails: after an AddPerson that repeats the identifier "1"
    and one DeletePerson of "1", a single matching deletion has removed two
    entries, so the roster is one shorter than the stated count. *)
Lemma C1_roster_length_counterexample :
  let ds := [(0, ADD_PERSON second_1); (0, DELETE_PERSON "1")] in
  Z.of_nat (List.length (persons (dispatchAll initialState ds)))
  <> Z.of_nat (List.length (persons initialState))
     + count_adds ds - count_hits initialState ds.
Proof. vm_compute. discriminate. Qed.

(** C1, amended: from the initial state, after any sequence of store actions,
    totalPersons is its initial value plus the number of AddPerson actions
    minus the number of DeletePerson actions, whether or not the deleted
    identifier was in the roster; the length of the roster is its initial
    length plus the number of AddPerson actions minus the number of entries
    that the DeletePerson actions matched (a DeletePerson removes every entry
    with its identifier); and where no two entries share an identifier in any
    state on the way, that is the number of DeletePerson actions whose
    identifier matched at least one entry. *)
Theorem C1_totalPersons_and_roster_length (ds : list Dispatch) :
  let s := dispatchAll initialState ds in
  Statistics.totalPersons (statistics s)
  = Statistics.totalPersons (statistics initialState)
    + count_adds ds - count_deletes ds
  /\ Z.of_nat (List.length (persons s))
     = Z.of_nat (List.length (persons initialState))
       + count_adds ds - count_removed initialState ds
  /\ (unique_along initialState ds ->
      Z.of_nat (List.length (persons s))
      = Z.of_nat (List.length (persons initialState))
        + count_adds ds - count_hits initialState ds).
Proof.
  cbv zeta. split; [apply totalPersons_dispatchAll|].
  split; [apply roster_length_dispatchAll|].
  intros H. rewrite <- (removed_is_hits _ _ H).
  apply roster_length_dispatchAll.
Qed.

(** C1 on a run with unique identifiers: one AddPerson, one DeletePerson
    that misses and one that hits leave the three seeded entries' count. *)
Lemma C1_totalPersons_and_roster_length_witness :
  Z.of_nat
    (List.length
       (persons
          (dispatchAll initialState
             [(5, ADD_PERSON fourth); (6, DELETE_PERSON "9");
              (7, DELETE_PERSON "4")])))
  = 3 + 1 - 1.
Proof.
  apply (proj2 (proj2 (C1_totalPersons_and_roster_length
                         [(5, ADD_PERSON fourth); (6, DELETE_PERSON "9");
                          (7, DELETE_PERSON "4")]))).
  apply keeps_ids_all_unique; [reflexivity | apply initialState_unique].
Defined.

(** C2, as stated, fails: a clock-in time that is there and empty counts as
    set, yet the reducer tests it for truthiness and does not count the
    record as a clock-in. *)
Lemma C2_empty_clock_in_counterexample :
  let s' :=
    attendanceReducer 0 initialState (ADD_ATTENDANCE_RECORD empty_clock_in) in
  is_set (AttendanceRecord.clockInTime empty_clock_in) = true
  /\ is_set (AttendanceRecord.clockOutTime empty_clock_in) = false
  /\ Statistics.totalClockIns (statistics s')
     <> Statistics.totalClockIns (statistics initialState) + 1.
Proof. vm_compute. repeat split; discriminate. Qed.

Lemma truthy_non_empty v : truthy v = true <-> non_empty v.
Proof.
  unfold truthy, non_empty. destruct v as [t|].
  - destruct (String.eqb_spec t "") as [E|E]; simpl; split.
    + discriminate.
    + intros [t' [H1 H2]]. congruence.
    + intros _. exists t. tauto.
    + reflexivity.
  - split; [discriminate|]. intros [t [H _]]. discriminate.
Qed.

(** C2, amended: AddAttendanceRecord appends the payload to attendanceRecords;
    totalClockIns goes up by exactly 1 if the payload's clockInTime is a
    non-empty string and its clockOutTime is not one, and is unchanged
    otherwise; totalClockOuts goes up by exactly 1 if clockOutTime is a
    non-empty string, and is unchanged otherwise; presentToday goes up by
    exactly 1 if the status is Present, and is unchanged otherwise. *)
Theorem C2_add_attendance_record (now : Date) (s : AttendanceState)
  (r : AttendanceRecord.t) :
  let s' := attendanceReducer now s (ADD_ATTENDANCE_RECORD r) in
  let clockIn := non_empty (AttendanceRecord.clockInTime r)
                 /\ ~ non_empty (AttendanceRecord.clockOutTime r) in
  let clockOut := non_empty (AttendanceRecord.clockOutTime r) in
  attendanceRecords s' = attendanceRecords s ++ [r]
  /\ (clockIn -> Statistics.totalClockIns (statistics s')
                 = Statistics.totalClockIns (statistics s) + 1)
  /\ (~ clockIn -> Statistics.totalClockIns (statistics s')
                   = Statistics.totalClockIns (statistics s))
  /\ (clockOut -> Statistics.totalClockOuts (statistics s')
                  = Statistics.totalClockOuts (statistics s) + 1)
  /\ (~ clockOut -> Statistics.totalClockOuts (statistics s')
                    = Statistics.totalClockOuts (statistics s))
  /\ (AttendanceRecord.status r = Present ->
      Statistics.presentToday (statistics s')
      = Statistics.presentToday (statistics s) + 1)
  /\ (AttendanceRecord.status r <> Present ->
      Statistics.presentToday (statistics s')
      = Statistics.presentToday (statistics s)).
Proof.
  cbv zeta. simpl. rewrite <- !truthy_non_empty.
  destruct (truthy (AttendanceRecord.clockInTime r));
    destruct (truthy (AttendanceRecord.clockOutTime r));
    destruct (AttendanceRecord.status r); simpl;
    repeat split; try reflexivity; try congruence; intuition congruence.
Qed.

(** C2 on the clock-in that the attendance page dispatches. *)
Lemma C2_add_attendance_record_witness :
  Statistics.totalClockIns
    (statistics
       (attendanceReducer 0 initialState (ADD_ATTENDANCE_RECORD clock_in_9)))
  = Statistics.totalClockIns (statistics initialState) + 1.
Proof.
  apply (proj1 (proj2 (C2_add_attendance_record 0 initialState clock_in_9))).
  split.
  - exists "09:00:00"%string. split; [reflexivity | discriminate].
  - intros [t [H _]]. discriminate H.
Defined.

(** C3: an UpdateAttendanceRecord action, whatever its identifier and patch,
    leaves the statistics as they were. *)
Theorem C3_update_attendance_record_keeps_statistics (now : Date)
  (s : AttendanceState) (i : string) (u : PartialAttendanceRecord.t) :
  statistics (attendanceReducer now s (UPDATE_ATTENDANCE_RECORD i u))
  = statistics s.
Proof. reflexivity. Qed.

(** C4, as stated, fails: in a roster where the entries at positions 0 and 3
    share the identifier "1", an UpdatePerson of "1" also patches the later
    entry. *)
Lemma C4_later_match_patched_counterexample :
  let s := dispatchAll initialState [(0, ADD_PERSON second_1)] in
  let s' := attendanceReducer 0 s (UPDATE_PERSON "1" (rename "Chitra")) in
  option_map Person.id (nth_error (persons s) 0) = Some "1"%string
  /\ nth_error (persons s) 3 = Some second_1
  /\ Person.id second_1 = "1"%string
  /\ nth_error (persons s') 3 <> nth_error (persons s) 3.
Proof. vm_compute. repeat split; discriminate. Qed.

(** C4, amended: for each of UpdatePerson, UpdateAttendanceRecord and
    UpdateTrainingSession, every entity of the target collection that carries
    the given identifier receives the patch, at its position, and every other
    entity is left unchanged; when no entity matches, the action is a no-op on
    the collection. *)
Theorem C4_update_patches_every_match (now : Date) (s : AttendanceState)
  (i : string) :
  (forall u,
     let s' := attendanceReducer now s (UPDATE_PERSON i u) in
     (forall k e, nth_error (persons s) k = Some e ->
        nth_error (persons s') k
        = Some (if String.eqb (Person.id e) i then spreadPerson e u else e))
     /\ ((forall e, In e (persons s) -> Person.id e <> i) ->
         persons s' = persons s))
  /\ (forall u,
       let s' := attendanceReducer now s (UPDATE_ATTENDANCE_RECORD i u) in
       (forall k e, nth_error (attendanceRecords s) k = Some e ->
          nth_error (attendanceRecords s') k
          = Some (if String.eqb (AttendanceRecord.id e) i
                  then spreadRecord e u else e))
       /\ ((forall e, In e (attendanceRecords s) ->
              AttendanceRecord.id e <> i) ->
           attendanceRecords s' = attendanceRecords s))
  /\ (forall u,
       let s' := attendanceReducer now s (UPDATE_TRAINING_SESSION i u) in
       (forall k e, nth_error (trainingSessions s) k = Some e ->
          nth_error (trainingSessions s') k
          = Some (if String.eqb (TrainingSession.id e) i
                  then spreadSession e u else e))
       /\ ((forall e, In e (trainingSessions s) ->
              TrainingSession.id e <> i) ->
           trainingSessions s' = trainingSessions s)).
Proof.
  repeat split; simpl; intros;
    first [ apply patch_by_id_nth; assumption
          | apply patch_by_id_miss; assumption ].
Qed.

(** C4 on a roster with a shared identifier: the later entry is patched. *)
Lemma C4_update_patches_every_match_witness :
  nth_error
    (persons
       (attendanceReducer 0
          (dispatchAll initialState [(0, ADD_PERSON second_1)])
          (UPDATE_PERSON "1" (rename "Chitra"))))
    3
  = Some (spreadPerson second_1 (rename "Chitra")).
Proof.
  apply (proj1 (proj1 (C4_update_patches_every_match 0
                         (dispatchAll initialState [(0, ADD_PERSON second_1)])
                         "1")
                 (rename "Chitra")) 3%nat second_1).
  reflexivity.
Defined.

(** C5, as stated, fails: the reducer appends an AddPerson payload whose
    identifier is already in the roster, and the state so reached has two
    entries with the identifier "1". *)
Lemma C5_shared_id_counterexample :
  ~ NoDup (ids (dispatchAll initialState [(0, ADD_PERSON second_1)])).
Proof.
  intros H. apply (NoDup_remove [] ["2"; "3"; "1"]%string "1"%string) in H.
  apply H. simpl. tauto.
Qed.

(** C5, amended: in every state reached from the initial state by store
    actions of which each AddPerson brings an identifier that is not in the
    roster yet and each UpdatePerson patch leaves the identifier as it is,
    Person identifiers are unique across the roster; and in such a state an
    AddPerson preserves the uniqueness exactly when its identifier is not in
    the roster yet. *)
Theorem C5_unique_ids_preserved (ds : list Dispatch)
  (H : keeps_ids_all initialState ds = true) :
  let s := dispatchAll initialState ds in
  NoDup (ids s)
  /\ forall now p,
       NoDup (ids (attendanceReducer now s (ADD_PERSON p)))
       <-> ~ In (Person.id p) (ids s).
Proof.
  cbv zeta.
  assert (Hs : NoDup (ids (dispatchAll initialState ds))).
  { apply unique_along_end, keeps_ids_all_unique;
      [exact H | apply initialState_unique]. }
  split; [exact Hs|]. intros now p. apply add_person_unique. exact Hs.
Qed.

(** C5 on a run that adds a fresh identifier, renames and deletes. *)
Lemma C5_unique_ids_preserved_witness :
  NoDup
    (ids
       (dispatchAll initialState
          [(5, ADD_PERSON fourth); (6, UPDATE_PERSON "4" (rename "Chitra"));
           (7, DELETE_PERSON "2")])).
Proof.
  apply (C5_unique_ids_preserved
           [(5, ADD_PERSON fourth); (6, UPDATE_PERSON "4" (rename "Chitra"));
            (7, DELETE_PERSON "2")]).
  reflexivity.
Defined.

(** C9: StartAttendanceSession with a lecture duration makes the current
    session active, stores the duration and records the clock reading as the
    start time; an EndAttendanceSession after it, at once or later, makes the
    session inactive and leaves neither a duration nor a start time. *)
Theorem C9_session_start_and_end (now : Date) (s : AttendanceState)
  (lectureDuration : string) :
  let started :=
    attendanceReducer now s (START_ATTENDANCE_SESSION lectureDuration) in
  CurrentSession.isActive (currentSession started) = true
  /\ CurrentSession.lectureDuration (currentSession started)
     = Some lectureDuration
  /\ CurrentSession.startTime (currentSession started) = Some now
  /\ forall (between : list Dispatch) (later : Date),
       let ended :=
         attendanceReducer later (dispatchAll started between)
           END_ATTENDANCE_SESSION in
       CurrentSession.isActive (currentSession ended) = false
       /\ CurrentSession.lectureDuration (currentSession ended) = None
       /\ CurrentSession.startTime (currentSession ended) = None.
Proof. cbv zeta. simpl. repeat split. Qed.

(** C10: every store action leaves the components it does not target
    unchanged.  The three person actions leave attendanceRecords,
    trainingSessions and currentSession; the two attendance-record actions
    leave persons, trainingSessions and currentSession; the two
    training-session actions leave persons, attendanceRecords, currentSession
    and statistics; the two session actions leave persons, attendanceRecords,
    trainingSessions and statistics; UpdatePerson leaves statistics too. *)
Theorem C10_untargeted_components_unchanged (now : Date)
  (s : AttendanceState) (a : AttendanceAction) :
  let s' := attendanceReducer now s a in
  match a with
  | ADD_PERSON _ | DELETE_PERSON _ =>
      attendanceRecords s' = attendanceRecords s
      /\ trainingSessions s' = trainingSessions s
      /\ currentSession s' = currentSession s
  | UPDATE_PERSON _ _ =>
      attendanceRecords s' = attendanceRecords s
      /\ trainingSessions s' = trainingSessions s
      /\ currentSession s' = currentSession s
      /\ statistics s' = statistics s
  | ADD_ATTENDANCE_RECORD _ | UPDATE_ATTENDANCE_RECORD _ _ =>
      persons s' = persons s
      /\ trainingSessions s' = trainingSessions s
      /\ currentSession s' = currentSession s
  | START_TRAINING_SESSION _ | UPDATE_TRAINING_SESSION _ _ =>
      persons s' = persons s
      /\ attendanceRecords s' = attendanceRecords s
      /\ currentSession s' = currentSession s
      /\ statistics s' = statistics s
  | START_ATTENDANCE_SESSION _ | END_ATTENDANCE_SESSION =>
      persons s' = persons s
      /\ attendanceRecords s' = attendanceRecords s
      /\ trainingSessions s' = trainingSessions s
      /\ statistics s' = statistics s
  | UPDATE_STATISTICS => s' = s
  end.
Proof. destruct a; cbv zeta; simpl; repeat split. Qed.

End StoreProps.

(** ** Regular expressions, trimming and the registration form *)

Module FormProps.

Import Js PageSpec.

(** *** The matcher decides the language *)

Lemma nullable_lang r : nullable r = true <-> lang r [].
Proof.
  split.
  - induction r; simpl; intros H; try discriminate.
    + constructor.
    + apply andb_true_iff in H. destruct H as [H1 H2].
      apply (lang_cat (w1 := []) (w2 := [])); auto.
    + apply orb_true_iff in H. destruct H as [H|H];
        [apply lang_alt_l | apply lang_alt_r]; auto.
    + constructor.
  - induction r; intros H; simpl; inversion H; subst; try reflexivity.
    + match goal with E : _ ++ _ = [] |- _ =>
        apply app_eq_nil in E; destruct E; subst end.
      apply andb_true_iff. split; auto.
    + apply orb_true_iff. left. auto.
    + apply orb_true_iff. right. auto.
Qed.

Lemma deriv_sound c r : forall w, lang (deriv c r) w -> lang r (c :: w).
Proof.
  induction r; simpl; intros w H.
  - inversion H.
  - inversion H.
  - destruct (p c) eqn:E; inversion H; subst. constructor. exact E.
  - destruct (nullable r1) eqn:N.
    + inversion H; subst.
      * match goal with H' : lang (Cat _ _) _ |- _ =>
          inversion H'; subst end.
        apply (lang_cat (w1 := c :: _)); auto.
      * apply (lang_cat (w1 := [])); [apply nullable_lang; exact N | auto].
    + inversion H; subst. apply (lang_cat (w1 := c :: _)); auto.
  - inversion H; subst; [apply lang_alt_l | apply lang_alt_r]; auto.
  - inversion H; subst. apply (lang_star_app (w1 := c :: _)); auto.
Qed.

Lemma deriv_complete r cw :
  lang r cw -> forall c w, cw = c :: w -> lang (deriv c r) w.
Proof.
  induction 1 as [ | p c0 Hp | r1 r2 w1 w2 H1 IH1 H2 IH2 | r1 r2 w0 H1 IH1
                 | r1 r2 w0 H1 IH1 | r0 | r0 w1 w2 H1 IH1 H2 IH2 ];
    intros c w E; simpl.
  - discriminate.
  - injection E as -> <-. rewrite Hp. constructor.
  - destruct w1 as [|a w1]; simpl in E.
    + apply nullable_lang in H1. rewrite H1. apply lang_alt_r. auto.
    + injection E as -> <-.
      destruct (nullable r1); [apply lang_alt_l|]; apply lang_cat; auto.
  - apply lang_alt_l. auto.
  - apply lang_alt_r. auto.
  - discriminate.
  - destruct w1 as [|a w1]; simpl in E.
    + apply (IH2 c w E).
    + injection E as -> <-. apply lang_cat; auto.
Qed.

Lemma matches_lang w : forall r, matches r w = true <-> lang r w.
Proof.
  induction w as [|c w IH]; intros r; simpl.
  - apply nullable_lang.
  - rewrite IH. split.
    + apply deriv_sound.
    + intros H. apply (deriv_complete H eq_refl).
Qed.

(** *** The three patterns *)

Lemma lang_star_cls p w : lang (Star (Cls p)) w <-> forallb p w = true.
Proof.
  split.
  - intros H. remember (Star (Cls p)) as r eqn:E.
    induction H; try discriminate; [reflexivity|].
    injection E as ->. inversion H; subst. simpl.
    apply andb_true_iff. split; auto.
  - induction w as [|c w IH]; simpl; intros H.
    + constructor.
    + apply andb_true_iff in H. destruct H as [H1 H2].
      apply (lang_star_app (w1 := [c])); [constructor|]; auto.
Qed.

Lemma lang_plus_cls p w :
  lang (Plus (Cls p)) w <-> w <> [] /\ forallb p w = true.
Proof.
  unfold Plus. split.
  - intros H. inversion H; subst.
    match goal with H' : lang (Cls _) _ |- _ => inversion H'; subst end.
    match goal with H' : lang (Star _) _ |- _ =>
      apply lang_star_cls in H' end.
    simpl. split; [discriminate|]. apply andb_true_iff. auto.
  - intros [Hne H]. destruct w as [|c w]; [congruence|].
    simpl in H. apply andb_true_iff in H. destruct H as [H1 H2].
    apply (lang_cat (w1 := [c])); [constructor; exact H1|].
    apply lang_star_cls. exact H2.
Qed.

Lemma lang_chr c w : lang (Chr c) w <-> w = [c].
Proof.
  unfold Chr. split.
  - intros H. inversion H; subst.
    match goal with E : Ascii.eqb _ _ = true |- _ =>
      apply Ascii.eqb_eq in E; subst end.
    reflexivity.
  - intros ->. constructor. apply Ascii.eqb_refl.
Qed.

Lemma lang_re_email w :
  lang AddPerson.re_email w
  <-> exists l d t,
        w = l ++ "@"%char :: d ++ "."%char :: t
        /\ (l <> [] /\ forallb AddPerson.not_space_at l = true)
        /\ (d <> [] /\ forallb AddPerson.not_space_at d = true)
        /\ (t <> [] /\ forallb AddPerson.not_space_at t = true).
Proof.
  unfold AddPerson.re_email. split.
  - intros H.
    inversion H as [ | | ? ? l x1 Hl H1 | | | | ]; subst.
    inversion H1 as [ | | ? ? a x2 Ha H2 | | | | ]; subst.
    inversion H2 as [ | | ? ? d x3 Hd H3 | | | | ]; subst.
    inversion H3 as [ | | ? ? b t Hb Ht | | | | ]; subst.
    apply lang_chr in Ha, Hb. subst.
    apply lang_plus_cls in Hl, Hd, Ht.
    exists l, d, t. simpl. tauto.
  - intros [l [d [t [-> [Hl [Hd Ht]]]]]].
    apply lang_cat; [apply lang_plus_cls; exact Hl|].
    apply (lang_cat (w1 := ["@"%char])); [apply lang_chr; reflexivity|].
    apply lang_cat; [apply lang_plus_cls; exact Hd|].
    apply (lang_cat (w1 := ["."%char])); [apply lang_chr; reflexivity|].
    apply lang_plus_cls; exact Ht.
Qed.

(** *** Strings and their characters *)

Lemma chars_app (a b : string) :
  list_ascii_of_string (a ++ b)
  = list_ascii_of_string a ++ list_ascii_of_string b.
Proof. induction a as [|c a IH]; simpl; [reflexivity | rewrite IH; reflexivity]. Qed.

Lemma chars_inj (a b : string) :
  list_ascii_of_string a = list_ascii_of_string b -> a = b.
Proof.
  intros H. rewrite <- (string_of_list_ascii_of_string a),
    <- (string_of_list_ascii_of_string b), H. reflexivity.
Qed.

Lemma chars_nil (a : string) :
  list_ascii_of_string a = [] <-> a = EmptyString.
Proof. destruct a; simpl; split; intros H; congruence. Qed.

Lemma test_plus_cls p s :
  test (Plus (Cls p)) s = true <-> s <> EmptyString /\ all_chars p s = true.
Proof.
  unfold test, all_chars. rewrite matches_lang, lang_plus_cls, chars_nil.
  tauto.
Qed.

Lemma test_re_email s : test AddPerson.re_email s = true <-> email_shape s.
Proof.
  unfold test, email_shape, address_part, all_chars.
  rewrite matches_lang, lang_re_email. split.
  - intros [l [d [t [E [Hl [Hd Ht]]]]]].
    exists (string_of_list_ascii l), (string_of_list_ascii d),
      (string_of_list_ascii t).
    rewrite <- !chars_nil, !list_ascii_of_string_of_list_ascii.
    split; [|tauto]. apply chars_inj.
    rewrite E, !chars_app, !list_ascii_of_string_of_list_ascii.
    reflexivity.
  - intros [l [d [t [-> [Hl [Hd Ht]]]]]].
    exists (list_ascii_of_string l), (list_ascii_of_string d),
      (list_ascii_of_string t).
    rewrite !chars_nil, !chars_app. simpl. tauto.
Qed.

(** *** Trimming *)

Lemma forallb_dropWhile p w :
  forallb p (dropWhile p w) = forallb p w.
Proof.
  induction w as [|c w IH]; simpl; [reflexivity|].
  destruct (p c) eqn:E; simpl; [exact IH | rewrite E; reflexivity].
Qed.

Lemma dropWhile_nil p w : dropWhile p w = [] <-> forallb p w = true.
Proof.
  induction w as [|c w IH]; simpl; [tauto|].
  destruct (p c); simpl; [exact IH|]. split; discriminate.
Qed.

Lemma forallb_rev (p : ascii -> bool) w : forallb p (rev w) = forallb p w.
Proof.
  induction w as [|c w IH]; simpl; [reflexivity|].
  rewrite forallb_app, IH. simpl. rewrite andb_true_r. apply andb_comm.
Qed.

(** A string trims to the empty string exactly when it is all white space. *)
Lemma trim_falsy s :
  truthy (trim s) = false <-> all_chars is_space s = true.
Proof.
  unfold truthy, trim, all_chars.
  rewrite negb_false_iff, String.eqb_eq, <- chars_nil,
    list_ascii_of_string_of_list_ascii.
  set (w := list_ascii_of_string s).
  rewrite <- (forallb_dropWhile is_space w), <- (forallb_rev is_space (dropWhile _ w)),
    <- dropWhile_nil.
  split; intros H.
  - rewrite <- (rev_involutive (dropWhile _ (rev _))), H. reflexivity.
  - rewrite H. reflexivity.
Qed.

Lemma not_blank_iff s : not_blank s <-> all_chars is_space s = false.
Proof.
  unfold not_blank, some_char, all_chars.
  induction (list_ascii_of_string s) as [|c w IH]; simpl.
  - split; discriminate.
  - destruct (is_space c); simpl; [exact IH | tauto].
Qed.

Lemma digit_not_space c : is_digit c = true -> is_space c = false.
Proof.
  unfold is_digit, is_space. intros H.
  apply andb_true_iff in H. destruct H as [H1 H2].
  apply Nat.leb_le in H1, H2.
  destruct (Nat.leb_spec 9 (code c)), (Nat.leb_spec (code c) 13),
    (Nat.eqb_spec (code c) 32), (Nat.eqb_spec (code c) 160);
    simpl; try reflexivity; lia.
Qed.

Lemma numeric_not_blank s : numeric_id s -> not_blank s.
Proof.
  unfold numeric_id, not_blank, all_chars, some_char.
  intros [Hne H]. destruct s as [|c s]; [congruence|]. simpl in *.
  apply andb_true_iff in H. destruct H as [H _].
  rewrite (digit_not_space _ H). reflexivity.
Qed.

(** *** The three fields *)

Lemma id_accepted f :
  AddPerson.Errors.id (AddPerson.newErrors f) = None
  <-> numeric_id (AddPerson.id f).
Proof.
  unfold AddPerson.newErrors, AddPerson.re_id. cbn [AddPerson.Errors.id].
  pose proof (trim_falsy (AddPerson.id f)) as Ht.
  pose proof (test_plus_cls is_digit (AddPerson.id f)) as Hd.
  pose proof (numeric_not_blank (s := AddPerson.id f)) as Hb.
  rewrite not_blank_iff in Hb. fold (numeric_id (AddPerson.id f)) in Hd.
  destruct (truthy (trim (AddPerson.id f)));
    destruct (test (Plus (Cls is_digit)) (AddPerson.id f)); simpl;
    split; intros H; try discriminate; try reflexivity.
  - apply Hd. reflexivity.
  - apply Hd in H. discriminate.
  - apply Hb in H. destruct Ht as [Ht _]. rewrite Ht in H by reflexivity.
    discriminate.
  - apply Hd in H. discriminate.
Qed.

Lemma name_accepted f :
  AddPerson.Errors.name (AddPerson.newErrors f) = None
  <-> letters_and_spaces (AddPerson.name f) /\ not_blank (AddPerson.name f).
Proof.
  unfold AddPerson.newErrors, AddPerson.re_name. cbn [AddPerson.Errors.name].
  pose proof (trim_falsy (AddPerson.name f)) as Ht.
  pose proof (test_plus_cls (fun c => is_letter c || is_space c)
                (AddPerson.name f)) as Hd.
  fold (letters_and_spaces (AddPerson.name f)) in Hd.
  rewrite not_blank_iff.
  destruct (truthy (trim (AddPerson.name f)));
    destruct (test _ (AddPerson.name f)); simpl;
    split; intros H; try discriminate; try reflexivity.
  - split; [apply Hd; reflexivity|].
    destruct (all_chars is_space (AddPerson.name f)); [|reflexivity].
    destruct Ht as [_ Ht]. discriminate Ht. reflexivity.
  - destruct H as [H _]. apply Hd in H. discriminate.
  - destruct H as [_ H]. destruct Ht as [Ht _].
    rewrite Ht in H by reflexivity. discriminate.
  - destruct H as [H _]. apply Hd in H. discriminate.
Qed.

Lemma email_accepted f :
  AddPerson.Errors.email (AddPerson.newErrors f) = None
  <-> AddPerson.email f = EmptyString \/ email_shape (AddPerson.email f).
Proof.
  unfold AddPerson.newErrors. cbn [AddPerson.Errors.email].
  rewrite <- test_re_email. unfold truthy.
  destruct (String.eqb_spec (AddPerson.email f) "") as [E|E];
    destruct (test AddPerson.re_email (AddPerson.email f)); simpl;
    split; intros H; try reflexivity; try tauto; try discriminate.
  destruct H as [H|H]; [contradiction | discriminate].
Qed.

Lemma validateForm_valid f : AddPerson.validateForm f = true <-> valid f.
Proof.
  unfold valid. rewrite <- id_accepted, <- name_accepted, <- email_accepted.
  unfold AddPerson.validateForm, AddPerson.keys_length.
  destruct (AddPerson.Errors.id (AddPerson.newErrors f));
    destruct (AddPerson.Errors.name (AddPerson.newErrors f));
    destruct (AddPerson.Errors.email (AddPerson.newErrors f));
    simpl; split; intros H; try discriminate; try tauto;
    destruct H as [H1 [H2 H3]]; discriminate.
Qed.

(** *** The claim about the registration form *)

(** C8, as stated, fails: a name of one space is non-empty and consists only
    of letters and white space, and the form with it is refused, since the
    name is required to have something left after trimming. *)
Lemma C8_blank_name_counterexample :
  stated_valid (AddPerson.mkForm "12" " " "" "")
  /\ AddPerson.validateForm (AddPerson.mkForm "12" " " "" "") = false.
Proof.
  split; [|vm_compute; reflexivity].
  unfold stated_valid, numeric_id, letters_and_spaces. simpl.
  repeat split; try discriminate. left. reflexivity.
Qed.

(** C8, amended: validation accepts a submission if and only if the
    identifier is non-empty and all digits, the name consists only of letters
    and white space and is not blank (some character of it is not white
    space), and the email is either empty or of the [local@domain.tld] shape.
    A submission with the identifier "12a" is rejected, the name "John Doe"
    raises no error, a submission with the name "John3" is rejected, one with
    the email "not-an-email" is rejected, and an empty email raises no
    error. *)
Theorem C8_validateForm_accepts :
  (forall f, AddPerson.validateForm f = true <-> valid f)
  /\ (forall n e d,
       AddPerson.validateForm (AddPerson.mkForm "12a" n e d) = false)
  /\ (forall i e d,
       AddPerson.Errors.name
         (AddPerson.newErrors (AddPerson.mkForm i "John Doe" e d)) = None)
  /\ (forall i e d,
       AddPerson.validateForm (AddPerson.mkForm i "John3" e d) = false)
  /\ (forall i n d,
       AddPerson.validateForm (AddPerson.mkForm i n "not-an-email" d) = false)
  /\ (forall i n d,
       AddPerson.Errors.email
         (AddPerson.newErrors (AddPerson.mkForm i n "" d)) = None).
Proof.
  split; [exact validateForm_valid|].
  split.
  { intros n e d.
    destruct (AddPerson.validateForm _) eqn:E; [|reflexivity].
    apply validateForm_valid in E. destruct E as [[_ H] _].
    vm_compute in H. discriminate H. }
  split.
  { intros i e d. apply name_accepted. vm_compute.
    repeat split; discriminate. }
  split.
  { intros i e d.
    destruct (AddPerson.validateForm _) eqn:E; [|reflexivity].
    apply validateForm_valid in E. destruct E as [_ [[[_ H] _] _]].
    vm_compute in H. discriminate H. }
  split.
  { intros i n d.
    destruct (AddPerson.validateForm _) eqn:E; [|reflexivity].
    apply validateForm_valid in E. destruct E as [_ [_ [H|H]]].
    - discriminate H.
    - apply test_re_email in H. vm_compute in H. discriminate H. }
  intros i n d. apply email_accepted. left. reflexivity.
Qed.

(** C8 on a submission that is accepted: identifier "12", name "John Doe",
    no email. *)
Lemma C8_validateForm_accepts_witness :
  AddPerson.validateForm (AddPerson.mkForm "12" "John Doe" "" "") = true.
Proof.
  apply (proj2 (proj1 C8_validateForm_accepts
                  (AddPerson.mkForm "12" "John Doe" "" ""))).
  unfold valid, numeric_id, letters_and_spaces, not_blank. simpl.
  repeat split; try discriminate. left. reflexivity.
Defined.

End FormProps.

(** ** The duration of a stay *)

Module DurationProps.

Import Js PageSpec.

Local Open Scope Z_scope.

(** A check that holds for 0, 1, ..., 99 holds below 100. *)
Lemma below_100 (check : Z -> bool) :
  forallb check (map Z.of_nat (seq 0 100)) = true ->
  forall n, 0 <= n < 100 -> check n = true.
Proof.
  intros H n Hn. rewrite forallb_forall in H. apply H.
  apply in_map_iff. exists (Z.to_nat n). split; [lia|].
  apply in_seq. lia.
Qed.

Lemma Number_two_digits n : 0 <= n < 100 -> Number (two_digits n) = Some n.
Proof.
  intros Hn.
  pose proof (below_100
                (fun k => match Number (two_digits k) with
                          | Some v => Z.eqb v k
                          | None => false
                          end)) as H.
  specialize (H ltac:(vm_compute; reflexivity) n Hn). cbv beta in H.
  destruct (Number (two_digits n)) as [v|]; [|discriminate].
  apply Z.eqb_eq in H. congruence.
Qed.

Lemma padStart_two_digits n :
  0 <= n < 100 -> padStart 2 "0" (toString n) = two_digits n.
Proof.
  intros Hn.
  pose proof (below_100
                (fun k => String.eqb (padStart 2 "0" (toString k))
                                     (two_digits k))) as H.
  specialize (H ltac:(vm_compute; reflexivity) n Hn). cbv beta in H.
  apply String.eqb_eq in H. exact H.
Qed.

Lemma digit_char_not_colon k :
  0 <= k < 10 -> Ascii.eqb (digit_char k) ":" = false.
Proof.
  intros Hk.
  pose proof (below_100
                (fun k => (10 <=? k) || negb (Ascii.eqb (digit_char k) ":")))
    as H.
  specialize (H ltac:(vm_compute; reflexivity) k ltac:(lia)). cbv beta in H.
  destruct (Z.leb_spec 10 k); [lia|]. cbn [orb] in H.
  apply negb_true_iff in H. exact H.
Qed.

Lemma split_two_then_colon c1 c2 rest :
  Ascii.eqb c1 ":" = false -> Ascii.eqb c2 ":" = false ->
  split ":" (String c1 (String c2 (String ":" rest)))
  = String c1 (String c2 EmptyString) :: split ":" rest.
Proof. intros H1 H2. simpl. rewrite H1, H2. reflexivity. Qed.

Lemma split_two_at_end c1 c2 :
  Ascii.eqb c1 ":" = false -> Ascii.eqb c2 ":" = false ->
  split ":" (String c1 (String c2 EmptyString))
  = [String c1 (String c2 EmptyString)].
Proof. intros H1 H2. simpl. rewrite H1, H2. reflexivity. Qed.

Lemma split_hms h m s :
  0 <= h < 100 -> 0 <= m < 100 -> 0 <= s < 100 ->
  split ":" (hms h m s) = [two_digits h; two_digits m; two_digits s].
Proof.
  intros Hh Hm Hs. unfold hms, two_digits.
  cbn [String.append].
  assert (D : forall n, 0 <= n < 100 ->
                Ascii.eqb (digit_char (n / 10)) ":" = false
                /\ Ascii.eqb (digit_char (n mod 10)) ":" = false).
  { intros n Hn. split; apply digit_char_not_colon.
    - split; [apply Z.div_pos; lia | apply Z.div_lt_upper_bound; lia].
    - apply Z.mod_pos_bound. lia. }
  destruct (D h Hh), (D m Hm), (D s Hs).
  rewrite !split_two_then_colon, split_two_at_end by assumption.
  reflexivity.
Qed.

Lemma hms_fields_hms h m s :
  0 <= h < 100 -> 0 <= m < 100 -> 0 <= s < 100 ->
  MarkAttendance.hms_fields (hms h m s) = Some (h, m, s).
Proof.
  intros Hh Hm Hs. unfold MarkAttendance.hms_fields.
  rewrite split_hms by assumption. cbn [map].
  rewrite !Number_two_digits by assumption. reflexivity.
Qed.

(** C7: for the clock-in "09:00:00" and the clock-out "10:30:15" the duration
    is "01:30:15"; and for well-formed HH:MM:SS inputs, the clock-out not
    earlier than the clock-in, the result is the zero-padded HH:MM:SS
    rendering of the difference in seconds. *)
Theorem C7_calculateDuration :
  MarkAttendance.calculateDuration "09:00:00" "10:30:15"
  = Some "01:30:15"%string
  /\ forall h1 m1 s1 h2 m2 s2 : Z,
       clock_fields h1 m1 s1 -> clock_fields h2 m2 s2 ->
       seconds_of h1 m1 s1 <= seconds_of h2 m2 s2 ->
       MarkAttendance.calculateDuration (hms h1 m1 s1) (hms h2 m2 s2)
       = Some (render_seconds (seconds_of h2 m2 s2 - seconds_of h1 m1 s1)).
Proof.
  split; [vm_compute; reflexivity|].
  intros h1 m1 s1 h2 m2 s2 Hin Hout Hle.
  unfold clock_fields, seconds_of in *.
  unfold MarkAttendance.calculateDuration.
  rewrite !hms_fields_hms by lia. cbv zeta.
  set (d := h2 * 3600 + m2 * 60 + s2 - (h1 * 3600 + m1 * 60 + s1)).
  assert (Hd : 0 <= d < 360000) by (unfold d; lia).
  rewrite !Z.rem_mod_nonneg by lia.
  assert (H3600 : 0 <= d mod 3600 < 3600) by (apply Z.mod_pos_bound; lia).
  assert (H60 : 0 <= d mod 60 < 60) by (apply Z.mod_pos_bound; lia).
  rewrite !padStart_two_digits.
  - reflexivity.
  - lia.
  - split; [apply Z.div_pos; lia | apply Z.div_lt_upper_bound; lia].
  - split; [apply Z.div_pos; lia | apply Z.div_lt_upper_bound; lia].
Qed.

(** The general part of C7 at the inputs of its example, written with their
    fields: 09:00:00 to 10:30:15 is 5415 seconds. *)
Lemma C7_calculateDuration_witness :
  MarkAttendance.calculateDuration (hms 9 0 0) (hms 10 30 15)
  = Some (render_seconds 5415).
Proof.
  apply (proj2 C7_calculateDuration 9 0 0 10 30 15).
  - unfold clock_fields. lia.
  - unfold clock_fields. lia.
  - unfold seconds_of. lia.
Defined.

End DurationProps.

(** ** Further properties of the store *)

Module MoreStoreProps.

Import Store StoreSpec MoreSpec.

Local Open Scope Z_scope.

Lemma spread1_twice (A : Type) (x : A) (o : option A) :
  spread1 (spread1 x o) o = spread1 x o.
Proof. destruct o; reflexivity. Qed.

Lemma spreadPerson_twice p u :
  spreadPerson (spreadPerson p u) u = spreadPerson p u.
Proof. unfold spreadPerson. simpl. rewrite !spread1_twice. reflexivity. Qed.

Lemma spreadRecord_twice r u :
  spreadRecord (spreadRecord r u) u = spreadRecord r u.
Proof. unfold spreadRecord. simpl. rewrite !spread1_twice. reflexivity. Qed.

Lemma spreadSession_twice t u :
  spreadSession (spreadSession t u) u = spreadSession t u.
Proof. unfold spreadSession. simpl. rewrite !spread1_twice. reflexivity. Qed.

Section PatchTwice.

Variables (A : Type) (key : A -> string) (patched : A -> A) (i : string).

Hypothesis patched_twice : forall e, patched (patched e) = patched e.

Lemma patch_map_twice (l : list A) :
  map (fun e => if String.eqb (key e) i then patched e else e)
      (map (fun e => if String.eqb (key e) i then patched e else e) l)
  = map (fun e => if String.eqb (key e) i then patched e else e) l.
Proof.
  rewrite map_map. apply map_ext. intros e.
  destruct (String.eqb (key e) i) eqn:E; [|rewrite E; reflexivity].
  destruct (String.eqb (key (patched e)) i) eqn:E'; [|reflexivity].
  apply patched_twice.
Qed.

End PatchTwice.

(** X1: each of the three update actions is idempotent: dispatching the same
    UpdatePerson, UpdateAttendanceRecord or UpdateTrainingSession a second
    time, right after the first, changes nothing, also when the patch moves
    the entity to another identifier. *)
Theorem X1_update_is_idempotent (now1 now2 : Date) (s : AttendanceState)
  (a : AttendanceAction) (H : is_update a = true) :
  attendanceReducer now2 (attendanceReducer now1 s a) a
  = attendanceReducer now1 s a.
Proof.
  destruct a; try discriminate H; simpl; f_equal.
  - apply (patch_map_twice Person.id (fun e => spreadPerson e updates)).
    intros e. apply spreadPerson_twice.
  - apply (patch_map_twice AttendanceRecord.id
             (fun e => spreadRecord e updates)).
    intros e. apply spreadRecord_twice.
  - apply (patch_map_twice TrainingSession.id
             (fun e => spreadSession e updates)).
    intros e. apply spreadSession_twice.
Qed.

(** X1 on a rename that also moves the first seeded person to the
    identifier "7". *)
Lemma X1_update_is_idempotent_witness :
  let a :=
    UPDATE_PERSON "1"
      (PartialPerson.mk (Some "7"%string) (Some "Chitra"%string) None None
         None None None) in
  attendanceReducer 2 (attendanceReducer 1 initialState a) a
  = attendanceReducer 1 initialState a.
Proof.
  cbv zeta. apply X1_update_is_idempotent. reflexivity.
Defined.

(** X2: DeletePerson removes every entry that carries the identifier and no
    other entry; deleting the same identifier again leaves the roster as it
    is after the first deletion, yet counts totalPersons down a second
    time. *)
Theorem X2_delete_person_removes_all_matches (now now' : Date)
  (s : AttendanceState) (i : string) :
  let s1 := attendanceReducer now s (DELETE_PERSON i) in
  let s2 := attendanceReducer now' s1 (DELETE_PERSON i) in
  (forall p, In p (persons s1) <-> In p (persons s) /\ Person.id p <> i)
  /\ in_roster i s1 = false
  /\ persons s2 = persons s1
  /\ Statistics.totalPersons (statistics s2)
     = Statistics.totalPersons (statistics s) - 2.
Proof.
  cbv zeta. simpl.
  assert (Hgone : forall l : list Person.t,
            filter (fun person => negb (String.eqb (Person.id person) i))
              (filter (fun person => negb (String.eqb (Person.id person) i))
                 l)
            = filter (fun person => negb (String.eqb (Person.id person) i))
                l).
  { induction l as [|p l IH]; simpl; [reflexivity|].
    destruct (String.eqb (Person.id p) i) eqn:E; simpl; [exact IH|].
    rewrite E. simpl. f_equal. exact IH. }
  split; [|split; [|split]].
  - intros p. rewrite filter_In, negb_true_iff, String.eqb_neq. tauto.
  - unfold in_roster. simpl.
    induction (persons s) as [|p l IH]; simpl; [reflexivity|].
    destruct (String.eqb (Person.id p) i) eqn:E; simpl; [exact IH|].
    rewrite E. exact IH.
  - apply Hgone.
  - lia.
Qed.

Lemma records_step now s a :
  Z.of_nat (List.length (attendanceRecords (attendanceReducer now s a)))
  = Z.of_nat (List.length (attendanceRecords s)) + count_records [(now, a)]
  /\ Z.of_nat (List.length (trainingSessions (attendanceReducer now s a)))
     = Z.of_nat (List.length (trainingSessions s))
       + count_trainings [(now, a)].
Proof.
  destruct a; simpl; rewrite ?length_app, ?length_map; simpl; lia.
Qed.

(** X3: attendance records and training sessions are only ever appended:
    after any sequence of store actions the number of attendance records is
    the number before plus the number of AddAttendanceRecord actions, and
    the number of training sessions is the number before plus the number of
    StartTrainingSession actions; no action removes one. *)
Theorem X3_records_and_sessions_append_only (ds : list Dispatch) :
  forall s : AttendanceState,
    Z.of_nat (List.length (attendanceRecords (dispatchAll s ds)))
    = Z.of_nat (List.length (attendanceRecords s)) + count_records ds
    /\ Z.of_nat (List.length (trainingSessions (dispatchAll s ds)))
       = Z.of_nat (List.length (trainingSessions s)) + count_trainings ds.
Proof.
  induction ds as [|[now a] ds IH]; intros s.
  - simpl. lia.
  - cbn [dispatchAll]. destruct (IH (attendanceReducer now s a)) as [H1 H2].
    destruct (records_step now s a) as [H3 H4].
    rewrite H1, H2, H3, H4. destruct a; simpl; lia.
Qed.

Lemma counters_step now s a :
  let st := statistics s in
  let st' := statistics (attendanceReducer now s a) in
  Statistics.totalClockIns st <= Statistics.totalClockIns st'
  /\ Statistics.totalClockOuts st <= Statistics.totalClockOuts st'
  /\ Statistics.presentToday st <= Statistics.presentToday st'
  /\ (Statistics.totalClockIns st' - Statistics.totalClockIns st)
     + (Statistics.totalClockOuts st' - Statistics.totalClockOuts st)
     <= count_records [(now, a)]
  /\ Statistics.presentToday st' - Statistics.presentToday st
     <= count_records [(now, a)].
Proof.
  destruct a; cbv zeta; simpl; try lia.
  destruct (truthy (AttendanceRecord.clockInTime payload));
    destruct (truthy (AttendanceRecord.clockOutTime payload));
    destruct (AttendanceStatus_eqb (AttendanceRecord.status payload) Present);
    simpl; lia.
Qed.

(** X4: no store action ever lowers presentToday, totalClockIns or
    totalClockOuts, and one added record counts as a clock-in or as a
    clock-out, never as both: over any sequence of store actions the gain in
    totalClockIns plus the gain in totalClockOuts is at most the number of
    AddAttendanceRecord actions, and so is the gain in presentToday. *)
Theorem X4_counters_monotone_and_bounded (ds : list Dispatch) :
  forall s : AttendanceState,
    let st := statistics s in
    let st' := statistics (dispatchAll s ds) in
    Statistics.totalClockIns st <= Statistics.totalClockIns st'
    /\ Statistics.totalClockOuts st <= Statistics.totalClockOuts st'
    /\ Statistics.presentToday st <= Statistics.presentToday st'
    /\ (Statistics.totalClockIns st' - Statistics.totalClockIns st)
       + (Statistics.totalClockOuts st' - Statistics.totalClockOuts st)
       <= count_records ds
    /\ Statistics.presentToday st' - Statistics.presentToday st
       <= count_records ds.
Proof.
  induction ds as [|[now a] ds IH]; intros s; cbv zeta.
  - simpl. lia.
  - cbn [dispatchAll].
    pose proof (IH (attendanceReducer now s a)) as H.
    pose proof (counters_step now s a) as H'. cbv zeta in H, H'.
    destruct a; cbn [count_records] in *; lia.
Qed.

(** X5: whether the current session is active after a sequence of store
    actions depends on the last session action alone: active if that is a
    StartAttendanceSession, inactive if it is an EndAttendanceSession, and
    as before if the sequence has neither. *)
Theorem X5_session_follows_last_session_action (ds : list Dispatch) :
  forall s : AttendanceState,
    CurrentSession.isActive (currentSession (dispatchAll s ds))
    = match last_session ds with
      | Some b => b
      | None => CurrentSession.isActive (currentSession s)
      end.
Proof.
  induction ds as [|[now a] ds IH]; intros s.
  - reflexivity.
  - cbn [dispatchAll last_session]. rewrite IH.
    destruct (last_session ds); [reflexivity|].
    destruct a; reflexivity.
Qed.

End MoreStoreProps.

(** ** The dashboard and the training page *)

Module DerivedProps.

Import Store.

Local Open Scope Z_scope.

Lemma slice_last_5 (A : Type) (a : list A) :
  Dashboard.slice (-5) a = skipn (List.length a - 5) a.
Proof.
  unfold Dashboard.slice. simpl. f_equal. lia.
Qed.

(** X6: the dashboard's recent attendance is the last five records, or all
    of them when there are fewer, newest first: its entry [i] is the record
    [i] places before the end; so a record that has just been added is its
    first entry. *)
Theorem X6_recent_attendance_newest_first (s : AttendanceState) :
  let recent := Dashboard.recentAttendance s in
  let n := List.length (attendanceRecords s) in
  List.length recent = Nat.min 5 n
  /\ (forall i, (i < List.length recent)%nat ->
        nth_error recent i = nth_error (attendanceRecords s) (n - 1 - i))
  /\ (forall now r,
        hd_error
          (Dashboard.recentAttendance
             (attendanceReducer now s (ADD_ATTENDANCE_RECORD r)))
        = Some r).
Proof.
  cbv zeta. unfold Dashboard.recentAttendance. rewrite slice_last_5.
  rewrite length_rev, length_skipn.
  split; [lia|]. split.
  - intros i Hi. rewrite nth_error_rev, length_skipn.
    destruct (Nat.ltb_spec i (List.length (attendanceRecords s) - (List.length (attendanceRecords s) - 5))); [|lia].
    rewrite nth_error_skipn. f_equal. lia.
  - intros now r. simpl. rewrite slice_last_5, length_app, skipn_app.
    simpl.
    replace (List.length (attendanceRecords s) + 1 - 5
             - List.length (attendanceRecords s))%nat with 0%nat by lia.
    rewrite rev_app_distr. reflexivity.
Qed.

(** X6 on a state with one record. *)
Lemma X6_recent_attendance_newest_first_witness :
  nth_error
    (Dashboard.recentAttendance
       (attendanceReducer 0 initialState
          (ADD_ATTENDANCE_RECORD StoreSpec.clock_in_9)))
    0
  = Some StoreSpec.clock_in_9.
Proof.
  apply (proj1 (proj2 (X6_recent_attendance_newest_first
                         (attendanceReducer 0 initialState
                            (ADD_ATTENDANCE_RECORD StoreSpec.clock_in_9))))
           0%nat).
  simpl. lia.
Defined.

Lemma sum_images_from (l : list Person.t) : forall a,
  fold_left (fun sum person =>
               sum + TrainImages.or_zero (Person.imageCount person)) l a
  = a + fold_left (fun sum person =>
                     sum + TrainImages.or_zero (Person.imageCount person))
          l 0.
Proof.
  induction l as [|p l IH]; intros a; simpl; [lia|].
  rewrite IH, (IH (TrainImages.or_zero (Person.imageCount p))). lia.
Qed.

(** X7: the training page's totals follow the roster: an added person who
    is active raises the number of active persons by one and the image total
    by the person's image count, a missing count being 0; an added person
    who is not active changes neither; and the button 'Start Training' is
    disabled exactly when no person of the roster is active. *)
Theorem X7_training_totals_follow_roster (now : Date) (s : AttendanceState)
  (p : Person.t) :
  let s' := attendanceReducer now s (ADD_PERSON p) in
  TrainImages.activePersons s'
  = TrainImages.activePersons s ++ (if Person.isActive p then [p] else [])
  /\ TrainImages.totalImages s'
     = TrainImages.totalImages s
       + (if Person.isActive p
          then match Person.imageCount p with Some n => n | None => 0 end
          else 0)
  /\ (TrainImages.startDisabled s = true
      <-> forall q, In q (persons s) -> Person.isActive q = false).
Proof.
  cbv zeta. unfold TrainImages.totalImages, TrainImages.activePersons.
  simpl. rewrite filter_app. simpl. split; [reflexivity|]. split.
  - rewrite fold_left_app. destruct (Person.isActive p); simpl; [|lia].
    f_equal. unfold TrainImages.or_zero.
    destruct (Person.imageCount p) as [n|]; [|reflexivity].
    destruct (Z.eqb_spec n 0); congruence.
  - unfold TrainImages.startDisabled, TrainImages.activePersons.
    rewrite Nat.eqb_eq, length_zero_iff_nil.
    induction (persons s) as [|q l IH]; simpl.
    + tauto.
    + destruct (Person.isActive q) eqn:E; split.
      * discriminate.
      * intros H. specialize (H q (or_introl eq_refl)). congruence.
      * intros H q' [<-|Hq']; [exact E | apply IH; assumption].
      * intros H. apply IH. intros q' Hq'. apply H. right. exact Hq'.
Qed.

End DerivedProps.

(** ** The registration page *)

Module RegistrationProps.

Import Store AddPersonPage MoreSpec.

Local Open Scope Z_scope.

Lemma ticks_app l1 l2 page : ticks (l1 ++ l2) page = ticks l2 (ticks l1 page).
Proof.
  revert page. induction l1 as [|t l1 IH]; intros page; simpl;
    [reflexivity | apply IH].
Qed.

Lemma ticks_cleared times : forall page,
  interval page = false -> ticks times page = page.
Proof.
  induction times as [|t times IH]; intros page H; simpl; [reflexivity|].
  unfold tick. rewrite H. apply IH. exact H.
Qed.

Lemma ticks_capturing f cam s al nv times : forall k,
  0 <= k -> k + Z.of_nat (List.length times) < totalImages ->
  ticks times (capturing f k cam s al nv)
  = capturing f (k + Z.of_nat (List.length times)) cam s al nv.
Proof.
  unfold totalImages.
  induction times as [|t times IH]; intros k Hk Hlen.
  - simpl. rewrite Z.add_0_r. reflexivity.
  - cbn [ticks]. cbn [List.length] in Hlen |- *.
    assert (E : tick t (capturing f k cam s al nv)
                = capturing f (k + 1) cam s al nv).
    { unfold tick, capturing, totalImages. cbn [interval capturedImages].
      destruct (Z.geb_spec (k + 1) 101); [lia | reflexivity]. }
    rewrite E, IH by lia. f_equal. lia.
Qed.

Lemma tick_last f cam s al nv t :
  tick t (capturing f 100 cam s al nv)
  = mkPage f false 101 false false
      (attendanceReducer t s (ADD_PERSON (newPerson t f)))
      (al ++ [("Images saved for ID: " ++ AddPerson.id f
               ++ ", Name: " ++ AddPerson.name f)%string])
      true.
Proof. reflexivity. Qed.

Lemma started_valid f s :
  AddPerson.validateForm f = true ->
  startCapturing (mounted f s) = capturing f 0 true s [] false.
Proof.
  intros H. unfold startCapturing, mounted. cbn [formData]. rewrite H.
  reflexivity.
Qed.

Lemma started_invalid f s :
  AddPerson.validateForm f = false ->
  startCapturing (mounted f s)
  = mkPage f false 0 true false s
      ["Please fill in all required fields correctly"%string] false.
Proof.
  intros H. unfold startCapturing, mounted. cbn [formData]. rewrite H.
  reflexivity.
Qed.

Lemma ticks_full f s times t :
  nth_error times 100 = Some t ->
  ticks times (capturing f 0 true s [] false)
  = mkPage f false 101 false false
      (attendanceReducer t s (ADD_PERSON (newPerson t f)))
      [("Images saved for ID: " ++ AddPerson.id f
        ++ ", Name: " ++ AddPerson.name f)%string]
      true.
Proof.
  intros Ht.
  destruct (nth_error_split times 100 Ht) as [l1 [l2 [-> Hl1]]].
  rewrite ticks_app. cbn [ticks].
  rewrite ticks_capturing by (unfold totalImages; lia).
  rewrite Hl1. change (0 + Z.of_nat 100) with 100.
  rewrite tick_last, ticks_cleared by reflexivity. reflexivity.
Qed.

Lemma capture_valid now f s :
  AddPerson.validateForm f = true ->
  App.capture now f s = attendanceReducer now s (ADD_PERSON (newPerson now f)).
Proof.
  intros H. unfold App.capture.
  rewrite (started_valid f s H), (ticks_full f s (repeat now 101) (t := now))
    by reflexivity.
  reflexivity.
Qed.

Lemma capture_invalid now f s :
  AddPerson.validateForm f = false -> App.capture now f s = s.
Proof.
  intros H. unfold App.capture.
  rewrite (started_invalid f s H), ticks_cleared by reflexivity.
  reflexivity.
Qed.

(** X8: a capture started on a form that validates saves exactly once, at
    the 101st firing of its timer.  Before that firing the store is as it
    was and the count of captured images is the number of firings; at that
    firing the person built from the form is added to the store with the
    reading of the clock as creation time, the count stays at 101, the timer
    is cleared, the camera is off and the page is left, whatever fires
    later. *)
Theorem X8_capture_saves_once_at_101 (f : AddPerson.FormData)
  (s : AttendanceState) (times : list Date)
  (Hvalid : AddPerson.validateForm f = true) :
  let page := ticks times (startCapturing (mounted f s)) in
  ((List.length times < 101)%nat ->
     store page = s
     /\ capturedImages page = Z.of_nat (List.length times)
     /\ isCapturing page = true /\ alerts page = [])
  /\ (forall t, nth_error times 100 = Some t ->
        store page = attendanceReducer t s (ADD_PERSON (newPerson t f))
        /\ capturedImages page = 101
        /\ isCapturing page = false /\ interval page = false
        /\ showCamera page = false /\ navigated page = true
        /\ List.length (alerts page) = 1%nat).
Proof.
  cbv zeta. rewrite (started_valid f s Hvalid). split.
  - intros Hlen. rewrite ticks_capturing by (unfold totalImages; lia).
    simpl. tauto.
  - intros t Ht. rewrite (ticks_full f s times Ht). simpl. tauto.
Qed.

(** X8 on the form of a fourth person and 150 firings. *)
Lemma X8_capture_saves_once_at_101_witness :
  store
    (ticks (repeat 7 150)
       (startCapturing
          (mounted (AddPerson.mkForm "4" "Charan" "" "Design") initialState)))
  = attendanceReducer 7 initialState
      (ADD_PERSON (newPerson 7 (AddPerson.mkForm "4" "Charan" "" "Design"))).
Proof.
  apply (proj2 (X8_capture_saves_once_at_101
                  (AddPerson.mkForm "4" "Charan" "" "Design") initialState
                  (repeat 7 150) eq_refl) 7).
  reflexivity.
Defined.

(** X9: a capture leaves the store alone when it is stopped before the
    101st image, and when the form does not validate, in which case the
    page only shows an alert: the timer does not run, and nothing that
    fires afterwards reaches the store. *)
Theorem X9_no_save_without_full_capture (f : AddPerson.FormData)
  (s : AttendanceState) (before after : list Date) :
  (AddPerson.validateForm f = false ->
     let page := ticks after (startCapturing (mounted f s)) in
     store page = s /\ isCapturing page = false
     /\ alerts page = ["Please fill in all required fields correctly"%string])
  /\ (AddPerson.validateForm f = true ->
      (List.length before < 101)%nat ->
      let page :=
        ticks after (stopCapture
                       (ticks before (startCapturing (mounted f s)))) in
      store page = s /\ isCapturing page = false
      /\ capturedImages page = Z.of_nat (List.length before)
      /\ alerts page = []).
Proof.
  split.
  - intros H. cbv zeta. rewrite (started_invalid f s H).
    rewrite ticks_cleared by reflexivity. simpl. tauto.
  - intros H Hlen. cbv zeta. rewrite (started_valid f s H).
    rewrite ticks_capturing by (unfold totalImages; lia).
    rewrite ticks_cleared by reflexivity. simpl. tauto.
Qed.

(** X9 on a form with a blank name, and on a capture stopped after three
    images. *)
Lemma X9_no_save_without_full_capture_witness :
  store
    (ticks [4; 5]
       (startCapturing
          (mounted (AddPerson.mkForm "4" " " "" "") initialState)))
  = initialState
  /\ store
       (ticks [4; 5]
          (stopCapture
             (ticks [1; 2; 3]
                (startCapturing
                   (mounted (AddPerson.mkForm "4" "Charan" "" "")
                      initialState)))))
     = initialState.
Proof.
  split.
  - apply (proj1 (X9_no_save_without_full_capture
                    (AddPerson.mkForm "4" " " "" "") initialState [] [4; 5])
             eq_refl).
  - apply (proj2 (X9_no_save_without_full_capture
                    (AddPerson.mkForm "4" "Charan" "" "") initialState
                    [1; 2; 3] [4; 5])
             eq_refl).
    simpl. lia.
Defined.

Lemma or_undefined_some s e : or_undefined s = Some e -> e = s /\ s <> EmptyString.
Proof.
  unfold or_undefined, Js.truthy.
  destruct (String.eqb_spec s ""); simpl; intros H; [discriminate|].
  split; congruence.
Qed.

(** X10: what reaches the store through the registration page has passed
    the validation.  A capture on a form that does not validate leaves the
    store as it is; a capture on a form that validates appends one person,
    with the form's identifier, non-empty and all digits, a name of letters
    and white space that is not blank, active, with 101 images, and with an
    email that is either absent or of the [local@domain.tld] shape; and
    totalPersons goes up by one. *)
Theorem X10_registered_person_is_validated (now : Date)
  (f : AddPerson.FormData) (s : AttendanceState) :
  let s' := App.capture now f s in
  (AddPerson.validateForm f = false -> s' = s)
  /\ (AddPerson.validateForm f = true ->
      exists p,
        persons s' = persons s ++ [p]
        /\ Person.id p = AddPerson.id f
        /\ PageSpec.numeric_id (Person.id p)
        /\ PageSpec.letters_and_spaces (Person.name p)
        /\ PageSpec.not_blank (Person.name p)
        /\ Person.isActive p = true
        /\ Person.imageCount p = Some 101
        /\ (forall e, Person.email p = Some e -> PageSpec.email_shape e)
        /\ Statistics.totalPersons (statistics s')
           = Statistics.totalPersons (statistics s) + 1).
Proof.
  cbv zeta. split.
  - apply capture_invalid.
  - intros H. rewrite (capture_valid now f s H).
    apply FormProps.validateForm_valid in H.
    destruct H as [Hid [[Hname Hblank] Hemail]].
    exists (newPerson now f). simpl.
    repeat split; try assumption; try apply Hid; try apply Hname.
    intros e He. apply or_undefined_some in He. destruct He as [-> Hne].
    destruct Hemail as [Hemail|Hemail]; [contradiction | exact Hemail].
Qed.

(** X10 on the form of a fourth person. *)
Lemma X10_registered_person_is_validated_witness :
  exists p,
    persons
      (App.capture 7 (AddPerson.mkForm "4" "Charan" "c@example.com" "")
         initialState)
    = persons initialState ++ [p]
    /\ Person.isActive p = true
    /\ Person.imageCount p = Some 101.
Proof.
  destruct (proj2 (X10_registered_person_is_validated 7
                     (AddPerson.mkForm "4" "Charan" "c@example.com" "")
                     initialState) ltac:(vm_compute; reflexivity))
    as [p [Hp [_ [_ [_ [_ [Ha [Hc _]]]]]]]].
  exists p. split; [exact Hp|]. split; assumption.
Defined.

(** X11: the registration page does not look at the roster: a form that
    validates and carries an identifier that some entry of the roster has
    already is captured and saved all the same, and leaves the roster with
    two entries under that identifier. *)
Theorem X11_registration_can_share_an_id (now : Date)
  (f : AddPerson.FormData) (s : AttendanceState)
  (Hvalid : AddPerson.validateForm f = true)
  (Hin : StoreSpec.in_roster (AddPerson.id f) s = true) :
  StoreSpec.occurrences (AddPerson.id f) (App.capture now f s)
  = S (StoreSpec.occurrences (AddPerson.id f) s)
  /\ ~ NoDup (StoreSpec.ids (App.capture now f s)).
Proof.
  rewrite (capture_valid now f s Hvalid). split.
  - unfold StoreSpec.occurrences. simpl. rewrite filter_app, length_app.
    simpl. rewrite String.eqb_refl. simpl. lia.
  - unfold StoreSpec.ids. simpl. rewrite map_app. simpl.
    intros H. apply StoreProps.NoDup_snoc in H. destruct H as [_ H].
    apply H. apply StoreProps.in_roster_In. exact Hin.
Qed.

(** X11 on a form that repeats the identifier of the first seeded person. *)
Lemma X11_registration_can_share_an_id_witness :
  ~ NoDup
      (StoreSpec.ids
         (App.capture 7 (AddPerson.mkForm "1" "Bhavana" "" "") initialState)).
Proof.
  apply (proj2 (X11_registration_can_share_an_id 7
                  (AddPerson.mkForm "1" "Bhavana" "" "") initialState
                  ltac:(vm_compute; reflexivity)
                  ltac:(vm_compute; reflexivity))).
Defined.

End RegistrationProps.

(** ** The attendance page *)

Module AttendancePageProps.

Import Store MarkAttendancePage MoreSpec.

Local Open Scope Z_scope.

Lemma toString_inj a b : Js.toString a = Js.toString b -> a = b.
Proof.
  unfold Js.toString. intros H.
  assert (N : forall z, Z.to_int z <> Decimal.Pos Decimal.Nil
                        /\ Z.to_int z <> Decimal.Neg Decimal.Nil).
  { intros [|q|q]; simpl; split; try discriminate; intros E;
      injection E as E; exact (Unsigned.to_uint_nonnil q E). }
  apply (f_equal NilZero.int_of_string) in H.
  rewrite !NilZero.isi in H by apply N.
  injection H as H. apply to_int_inj. exact H.
Qed.

Lemma existing_spec clock p s :
  match existingRecord clock p s with
  | Some e =>
      exists l rest,
        attendanceRecords s = l ++ e :: rest
        /\ of_today clock p e
        /\ forall r, In r l -> ~ of_today clock p r
  | None => forall r, In r (attendanceRecords s) -> ~ of_today clock p r
  end.
Proof.
  unfold existingRecord, of_today.
  induction (attendanceRecords s) as [|x l IH]; simpl.
  - tauto.
  - destruct (String.eqb_spec (AttendanceRecord.personId x) (Person.id p))
      as [E1|E1];
      destruct (String.eqb_spec (AttendanceRecord.date x) (today clock))
        as [E2|E2]; simpl.
    + exists [], l. simpl. tauto.
    + destruct (find _ l) as [e|].
      * destruct IH as [l1 [rest [-> [He Hl1]]]].
        exists (x :: l1), rest. simpl. split; [reflexivity|].
        split; [exact He|]. intros r [<-|Hr]; [tauto | auto].
      * intros r [<-|Hr]; [tauto | auto].
    + destruct (find _ l) as [e|].
      * destruct IH as [l1 [rest [-> [He Hl1]]]].
        exists (x :: l1), rest. simpl. split; [reflexivity|].
        split; [exact He|]. intros r [<-|Hr]; [tauto | auto].
      * intros r [<-|Hr]; [tauto | auto].
    + destruct (find _ l) as [e|].
      * destruct IH as [l1 [rest [-> [He Hl1]]]].
        exists (x :: l1), rest. simpl. split; [reflexivity|].
        split; [exact He|]. intros r [<-|Hr]; [tauto | auto].
      * intros r [<-|Hr]; [tauto | auto].
Qed.

Lemma existing_none clock p s :
  (forall r, In r (attendanceRecords s) -> ~ of_today clock p r) ->
  existingRecord clock p s = None.
Proof.
  intros H. pose proof (existing_spec clock p s) as E.
  destruct (existingRecord clock p s) as [e|]; [|reflexivity].
  destruct E as [l [rest [Hs [He _]]]]. exfalso.
  apply (H e); [|exact He]. rewrite Hs. apply in_elt.
Qed.

Lemma existing_first clock p s l e rest :
  attendanceRecords s = l ++ e :: rest ->
  (forall r, In r l -> ~ of_today clock p r) ->
  of_today clock p e ->
  existingRecord clock p s = Some e.
Proof.
  unfold existingRecord, of_today. intros -> Hl [He1 He2].
  induction l as [|x l IH]; simpl.
  - rewrite He1, He2, !String.eqb_refl. reflexivity.
  - destruct (String.eqb_spec (AttendanceRecord.personId x) (Person.id p))
      as [E1|E1];
      destruct (String.eqb_spec (AttendanceRecord.date x) (today clock))
        as [E2|E2]; simpl;
      try (apply IH; intros r Hr; apply Hl; right; exact Hr).
    exfalso. apply (Hl x); [left; reflexivity | tauto].
Qed.

Lemma spread_closes r t d :
  spreadRecord r (clockOutUpdates t d) = closed r t d.
Proof. reflexivity. Qed.

(** X12: clocking out when the detected person has no record with today's
    date leaves the store untouched and shows 'No clock-in record found for
    today'; with nobody detected it does nothing at all. *)
Theorem X12_clock_out_without_record (clock : Clock) (s : AttendanceState) :
  handleClockOut clock None s = Done s None
  /\ forall p,
       (forall r, In r (attendanceRecords s) -> ~ of_today clock p r) ->
       handleClockOut clock (Some p) s
       = Done s (Some "No clock-in record found for today"%string).
Proof.
  split; [reflexivity|]. intros p H. unfold handleClockOut.
  rewrite (@existing_none clock p s H). reflexivity.
Qed.

(** X12 on the initial state, which has no record. *)
Lemma X12_clock_out_without_record_witness :
  handleClockOut (mkClock 1700000000000 "2023-11-14" "17:00:00")
    (Some StoreSpec.fourth) initialState
  = Done initialState (Some "No clock-in record found for today"%string).
Proof.
  apply (proj2 (X12_clock_out_without_record
                  (mkClock 1700000000000 "2023-11-14" "17:00:00")
                  initialState)).
  intros r Hr. destruct Hr.
Defined.

Lemma duration_defined_from h m sec clock :
  PageSpec.clock_fields h m sec -> timed clock ->
  exists d,
    MarkAttendance.calculateDuration (PageSpec.hms h m sec) (time clock)
    = Some d.
Proof.
  intros F1 [h2 [m2 [s2 [F2 ->]]]].
  unfold PageSpec.clock_fields in *.
  unfold MarkAttendance.calculateDuration.
  rewrite !DurationProps.hms_fields_hms by lia. eexists. reflexivity.
Qed.

Lemma duration_rendered h1 m1 s1 h2 m2 s2 :
  PageSpec.clock_fields h1 m1 s1 -> PageSpec.clock_fields h2 m2 s2 ->
  PageSpec.seconds_of h1 m1 s1 <= PageSpec.seconds_of h2 m2 s2 ->
  MarkAttendance.calculateDuration (PageSpec.hms h1 m1 s1)
    (PageSpec.hms h2 m2 s2)
  = Some (PageSpec.render_seconds
            (PageSpec.seconds_of h2 m2 s2 - PageSpec.seconds_of h1 m1 s1)).
Proof.
  unfold PageSpec.clock_fields, PageSpec.seconds_of. intros F1 F2 Hle.
  unfold MarkAttendance.calculateDuration.
  rewrite !DurationProps.hms_fields_hms by lia. cbv zeta.
  set (d := h2 * 3600 + m2 * 60 + s2 - (h1 * 3600 + m1 * 60 + s1)).
  assert (Hd : 0 <= d < 360000) by (unfold d; lia).
  rewrite !Z.rem_mod_nonneg by lia.
  assert (H3600 : 0 <= d mod 3600 < 3600) by (apply Z.mod_pos_bound; lia).
  assert (H60 : 0 <= d mod 60 < 60) by (apply Z.mod_pos_bound; lia).
  rewrite !DurationProps.padStart_two_digits.
  - reflexivity.
  - lia.
  - split; [apply Z.div_pos; lia | apply Z.div_lt_upper_bound; lia].
  - split; [apply Z.div_pos; lia | apply Z.div_lt_upper_bound; lia].
Qed.

(** X13: clocking out goes to the first record that the detected person has
    with today's date, whether or not that record is still open.  With the
    clock-in time of that record and the time of the clock both written
    HH:MM:SS, every record with that record's identifier gets the clock-out
    time and the computed duration written into it, the duration being the
    HH:MM:SS rendering of the difference when the clock-out is not the
    earlier of the two; every other record, the roster and all statistics
    stay as they are, so totalClockOuts does not count the clock-out.  If
    that first record has no clock-in time the handler throws instead. *)
Theorem X13_clock_out_patches_first_record_of_today (clock : Clock)
  (p : Person.t) (s : AttendanceState)
  (before : list AttendanceRecord.t) (e : AttendanceRecord.t)
  (after : list AttendanceRecord.t)
  (Hrecords : attendanceRecords s = before ++ e :: after)
  (Hbefore : forall r, In r before -> ~ of_today clock p r)
  (Hfirst : of_today clock p e) :
  (AttendanceRecord.clockInTime e = None ->
     handleClockOut clock (Some p) s = TypeError)
  /\ (forall h1 m1 s1 h2 m2 s2,
        PageSpec.clock_fields h1 m1 s1 -> PageSpec.clock_fields h2 m2 s2 ->
        AttendanceRecord.clockInTime e = Some (PageSpec.hms h1 m1 s1) ->
        time clock = PageSpec.hms h2 m2 s2 ->
        exists d s',
          MarkAttendance.calculateDuration (PageSpec.hms h1 m1 s1)
            (PageSpec.hms h2 m2 s2) = Some d
          /\ (PageSpec.seconds_of h1 m1 s1 <= PageSpec.seconds_of h2 m2 s2 ->
              d = PageSpec.render_seconds
                    (PageSpec.seconds_of h2 m2 s2
                     - PageSpec.seconds_of h1 m1 s1))
          /\ handleClockOut clock (Some p) s
             = Done s'
                 (Some (Person.name p ++ " clocked out successfully!")%string)
          /\ statistics s' = statistics s
          /\ persons s' = persons s
          /\ forall k r,
               nth_error (attendanceRecords s) k = Some r ->
               nth_error (attendanceRecords s') k
               = Some (if String.eqb (AttendanceRecord.id r)
                                     (AttendanceRecord.id e)
                       then closed r (time clock) d
                       else r)).
Proof.
  pose proof (@existing_first clock p s before e after Hrecords Hbefore
                Hfirst) as Hfind.
  split.
  - intros Hnone. unfold handleClockOut. rewrite Hfind, Hnone. reflexivity.
  - intros h1 m1 s1 h2 m2 s2 F1 F2 Hin Hout.
    assert (T : timed clock) by (exists h2, m2, s2; tauto).
    destruct (@duration_defined_from h1 m1 s1 clock F1 T) as [d Hd].
    exists d. eexists. rewrite <- Hout.
    split; [exact Hd|]. split.
    + intros Hle. pose proof (duration_rendered F1 F2 Hle) as R.
      rewrite <- Hout, Hd in R. injection R as R. exact R.
    + unfold handleClockOut. rewrite Hfind, Hin, Hd.
      split; [reflexivity|]. simpl. repeat split. intros k r Hk.
      rewrite nth_error_map, Hk. reflexivity.
Qed.

(** X13 on the first seeded person, clocked in at nine and out at
    half past ten. *)
Lemma X13_clock_out_patches_first_record_of_today_witness :
  exists d s',
    MarkAttendance.calculateDuration (PageSpec.hms 9 0 0)
      (PageSpec.hms 10 30 15) = Some d
    /\ handleClockOut (mkClock 1700005415000 "2023-11-14" "10:30:15")
         (Some (Person.mk "1" "Abhinav" None None None true 0))
         (attendanceReducer 0 initialState
            (ADD_ATTENDANCE_RECORD StoreSpec.clock_in_9))
       = Done s' (Some "Abhinav clocked out successfully!"%string)
    /\ statistics s'
       = statistics
           (attendanceReducer 0 initialState
              (ADD_ATTENDANCE_RECORD StoreSpec.clock_in_9)).
Proof.
  destruct (proj2 (@X13_clock_out_patches_first_record_of_today
                     (mkClock 1700005415000 "2023-11-14" "10:30:15")
                     (Person.mk "1" "Abhinav" None None None true 0)
                     (attendanceReducer 0 initialState
                        (ADD_ATTENDANCE_RECORD StoreSpec.clock_in_9))
                     [] StoreSpec.clock_in_9 [] eq_refl
                     (fun r (H : In r []) => match H with end)
                     (conj eq_refl eq_refl))
              9 0 0 10 30 15
              ltac:(unfold PageSpec.clock_fields; lia)
              ltac:(unfold PageSpec.clock_fields; lia)
              eq_refl eq_refl)
    as [d [s' [H1 [_ [H2 [H3 _]]]]]].
  exists d, s'. repeat split; assumption.
Defined.

Lemma hms_not_empty h m s : truthy (Some (PageSpec.hms h m s)) = true.
Proof. reflexivity. Qed.

Lemma timed_truthy clock : timed clock -> truthy (Some (time clock)) = true.
Proof. intros [h [m [s [_ ->]]]]. apply hms_not_empty. Qed.

Lemma duration_defined c1 c2 :
  timed c1 -> timed c2 ->
  exists d, MarkAttendance.calculateDuration (time c1) (time c2) = Some d.
Proof.
  intros [h1 [m1 [s1 [F1 ->]]]] [h2 [m2 [s2 [F2 ->]]]].
  unfold PageSpec.clock_fields in *.
  unfold MarkAttendance.calculateDuration.
  rewrite !DurationProps.hms_fields_hms by lia. eexists. reflexivity.
Qed.

Lemma clock_out_first clock p s l e rest clockIn d :
  attendanceRecords s = l ++ e :: rest ->
  (forall r, In r l -> ~ of_today clock p r) ->
  of_today clock p e ->
  AttendanceRecord.clockInTime e = Some clockIn ->
  MarkAttendance.calculateDuration clockIn (time clock) = Some d ->
  handleClockOut clock (Some p) s
  = Done (attendanceReducer (ms clock) s
            (UPDATE_ATTENDANCE_RECORD (AttendanceRecord.id e)
               (clockOutUpdates (time clock) d)))
         (Some (Person.name p ++ " clocked out successfully!")%string).
Proof.
  intros Hs Hl He Hin Hd. unfold handleClockOut.
  rewrite (@existing_first clock p s l e rest Hs Hl He), Hin, Hd.
  reflexivity.
Qed.

Lemma of_today_same_day c c' p r :
  today c' = today c -> (of_today c' p r <-> of_today c p r).
Proof. unfold of_today. intros ->. tauto. Qed.

(** X14: a second stay on the same day is never closed.  When a person
    without a record today clocks in, out, in again and out again, all on
    one day and the two clock-ins at different milliseconds, the second
    clock-out goes to the first record again: that record ends up with the
    last clock-out time and the duration from the first clock-in to it, the
    record of the second clock-in stays without a clock-out time, and the
    statistics count two clock-ins and no clock-out. *)
Theorem X14_second_stay_is_never_closed (s : AttendanceState) (p : Person.t)
  (c1 c2 c3 c4 : Clock) (conf1 conf3 : Z)
  (Hday2 : today c2 = today c1) (Hday3 : today c3 = today c1)
  (Hday4 : today c4 = today c1)
  (Ht1 : timed c1) (Ht2 : timed c2) (Ht3 : timed c3) (Ht4 : timed c4)
  (Hms : ms c1 <> ms c3)
  (Hnone : forall r, In r (attendanceRecords s) -> ~ of_today c1 p r)
  (Hfresh : forall r, In r (attendanceRecords s) ->
              AttendanceRecord.id r <> Js.toString (ms c1)) :
  exists d s4,
    MarkAttendance.calculateDuration (time c1) (time c4) = Some d
    /\ App.run s [App.ClockIn c1 (Some p) conf1; App.ClockOut c2 (Some p);
                  App.ClockIn c3 (Some p) conf3; App.ClockOut c4 (Some p)]
       = Some s4
    /\ attendanceRecords s4
       = attendanceRecords s
         ++ [closed (clockInRecord c1 p conf1) (time c4) d;
             clockInRecord c3 p conf3]
    /\ Statistics.totalClockIns (statistics s4)
       = Statistics.totalClockIns (statistics s) + 2
    /\ Statistics.totalClockOuts (statistics s4)
       = Statistics.totalClockOuts (statistics s).
Proof.
  destruct (duration_defined Ht1 Ht2) as [d12 Hd12].
  destruct (duration_defined Ht1 Ht4) as [d14 Hd14].
  exists d14.
  set (r1 := clockInRecord c1 p conf1). set (r3 := clockInRecord c3 p conf3).
  set (s1 := attendanceReducer (ms c1) s (ADD_ATTENDANCE_RECORD r1)).
  set (s2 := attendanceReducer (ms c2) s1
               (UPDATE_ATTENDANCE_RECORD (AttendanceRecord.id r1)
                  (clockOutUpdates (time c2) d12))).
  set (s3 := attendanceReducer (ms c3) s2 (ADD_ATTENDANCE_RECORD r3)).
  set (s4 := attendanceReducer (ms c4) s3
               (UPDATE_ATTENDANCE_RECORD (AttendanceRecord.id r1)
                  (clockOutUpdates (time c4) d14))).
  exists s4.
  assert (Hkeep : forall u,
            map (fun record =>
                   if String.eqb (AttendanceRecord.id record)
                                 (AttendanceRecord.id r1)
                   then spreadRecord record u else record)
                (attendanceRecords s)
            = attendanceRecords s).
  { intros u. apply StoreProps.patch_by_id_miss. exact Hfresh. }
  assert (E2 : attendanceRecords s2
               = attendanceRecords s ++ [closed r1 (time c2) d12]).
  { unfold s2, s1. simpl. rewrite map_app, Hkeep. simpl.
    rewrite String.eqb_refl. reflexivity. }
  assert (E3 : attendanceRecords s3
               = attendanceRecords s ++ closed r1 (time c2) d12 :: [r3]).
  { change (attendanceRecords s3) with (attendanceRecords s2 ++ [r3]).
    rewrite E2, <- app_assoc. reflexivity. }
  assert (Hid : String.eqb (AttendanceRecord.id r3) (AttendanceRecord.id r1)
                = false).
  { apply String.eqb_neq. simpl. intros E. apply toString_inj in E.
    congruence. }
  split; [exact Hd14|]. split; [|split; [|split]].
  - cbn [App.run App.handle]. unfold handleClockIn. fold r1. fold s1.
    rewrite (@clock_out_first c2 p s1 (attendanceRecords s) r1 []
               (time c1) d12); try reflexivity; try assumption.
    + fold s2. fold r3. fold s3.
      rewrite (@clock_out_first c4 p s3 (attendanceRecords s)
                 (closed r1 (time c2) d12) [r3] (time c1) d14);
        try reflexivity; try assumption.
      * intros r Hr. rewrite (@of_today_same_day c1 c4 p r Hday4). auto.
      * split; [reflexivity | simpl; congruence].
    + intros r Hr. rewrite (@of_today_same_day c1 c2 p r Hday2). auto.
    + split; [reflexivity | simpl; congruence].
  - change (attendanceRecords s4)
      with (map (fun record =>
                   if String.eqb (AttendanceRecord.id record)
                                 (AttendanceRecord.id r1)
                   then spreadRecord record (clockOutUpdates (time c4) d14)
                   else record)
                (attendanceRecords s3)).
    rewrite E3, map_app, Hkeep. cbn [map].
    change (AttendanceRecord.id (closed r1 (time c2) d12))
      with (AttendanceRecord.id r1).
    rewrite String.eqb_refl, Hid. reflexivity.
  - pose proof (timed_truthy Ht1) as T1. pose proof (timed_truthy Ht3) as T3.
    unfold s4, s3, s2, s1, r1, r3. simpl in T1, T3 |- *.
    rewrite T1, T3. simpl. lia.
  - unfold s4, s3, s2, s1, r1, r3. simpl. reflexivity.
Qed.

(** X14 on the first seeded person and the initial state: in at nine, out
    at ten, in at eleven, out at noon. *)
Lemma X14_second_stay_is_never_closed_witness :
  exists d s4,
    MarkAttendance.calculateDuration "09:00:00" "12:00:00" = Some d
    /\ App.run initialState
         [App.ClockIn (mkClock 1 "2023-11-14" "09:00:00")
            (Some (Person.mk "1" "Abhinav" None None None true 0)) 90;
          App.ClockOut (mkClock 2 "2023-11-14" "10:00:00")
            (Some (Person.mk "1" "Abhinav" None None None true 0));
          App.ClockIn (mkClock 3 "2023-11-14" "11:00:00")
            (Some (Person.mk "1" "Abhinav" None None None true 0)) 95;
          App.ClockOut (mkClock 4 "2023-11-14" "12:00:00")
            (Some (Person.mk "1" "Abhinav" None None None true 0))]
       = Some s4
    /\ attendanceRecords s4
       = attendanceRecords initialState
         ++ [closed
               (clockInRecord (mkClock 1 "2023-11-14" "09:00:00")
                  (Person.mk "1" "Abhinav" None None None true 0) 90)
               "12:00:00" d;
             clockInRecord (mkClock 3 "2023-11-14" "11:00:00")
               (Person.mk "1" "Abhinav" None None None true 0) 95]
    /\ Statistics.totalClockIns (statistics s4)
       = Statistics.totalClockIns (statistics initialState) + 2
    /\ Statistics.totalClockOuts (statistics s4)
       = Statistics.totalClockOuts (statistics initialState).
Proof.
  assert (T : forall n h, 0 <= h < 24 ->
                timed (mkClock n "2023-11-14" (PageSpec.hms h 0 0))).
  { intros n h Hh. exists h, 0, 0. unfold PageSpec.clock_fields.
    split; [lia | reflexivity]. }
  apply (@X14_second_stay_is_never_closed initialState
           (Person.mk "1" "Abhinav" None None None true 0)
           (mkClock 1 "2023-11-14" "09:00:00")
           (mkClock 2 "2023-11-14" "10:00:00")
           (mkClock 3 "2023-11-14" "11:00:00")
           (mkClock 4 "2023-11-14" "12:00:00") 90 95
           eq_refl eq_refl eq_refl
           (T 1 9 ltac:(lia)) (T 2 10 ltac:(lia)) (T 3 11 ltac:(lia))
           (T 4 12 ltac:(lia))).
  - discriminate.
  - intros r [].
  - intros r [].
Defined.

Lemma existing_in clock p s e :
  existingRecord clock p s = Some e -> In e (attendanceRecords s).
Proof.
  unfold existingRecord. intros H. apply find_some in H. tauto.
Qed.

Lemma page_step e s :
  page_invariant s -> well_timed e ->
  exists s' alert,
    App.handle e s = Done s' alert /\ page_invariant s'.
Proof.
  unfold page_invariant.
  intros [Hp [Ho [Hi [Ht [Htr [Hact Hrec]]]]]] Hw.
  destruct e as [now f | now d | clock [p|] conf | clock [p|] | now];
    cbn [App.handle].
  - destruct (AddPerson.validateForm f) eqn:V.
    + rewrite (@RegistrationProps.capture_valid now f s V).
      do 2 eexists. split; [reflexivity|]. simpl.
      rewrite length_app. simpl.
      repeat split; try assumption; try lia.
      intros q Hq. apply in_app_or in Hq. destruct Hq as [Hq|[<-|[]]];
        [auto | reflexivity].
    + rewrite (@RegistrationProps.capture_invalid now f s V).
      do 2 eexists. split; [reflexivity|]. tauto.
  - unfold handleStartSession. destruct (Js.truthy d); simpl;
      do 2 eexists; (split; [reflexivity|]); simpl; tauto.
  - unfold handleClockIn. do 2 eexists. split; [reflexivity|].
    pose proof (timed_truthy Hw) as T. simpl in T |- *. rewrite T. simpl.
    rewrite length_app. simpl.
    repeat split; try assumption; try lia.
    intros r Hr. apply in_app_or in Hr. destruct Hr as [Hr|[<-|[]]];
      [auto|].
    destruct Hw as [h [m [sec [F E]]]]. exists h, m, sec. simpl.
    rewrite E. tauto.
  - do 2 eexists. split; [reflexivity|]. tauto.
  - unfold handleClockOut.
    destruct (existingRecord clock p s) as [x|] eqn:X.
    + destruct (Hrec x (@existing_in clock p s x X)) as [h [m [sec [F E]]]].
      destruct (duration_defined_from F Hw) as [d Hd].
      rewrite E, Hd. do 2 eexists. split; [reflexivity|]. simpl.
      rewrite length_map.
      repeat split; try assumption.
      intros r Hr. apply in_map_iff in Hr. destruct Hr as [r0 [<- Hr0]].
      destruct (Hrec r0 Hr0) as [h' [m' [sec' [F' E']]]].
      exists h', m', sec'. split; [exact F'|].
      destruct (String.eqb _ _); [exact E' | exact E'].
    + do 2 eexists. split; [reflexivity|]. tauto.
  - do 2 eexists. split; [reflexivity|]. tauto.
  - unfold handleSaveAttendance. do 2 eexists. split; [reflexivity|].
    simpl. tauto.
Qed.

Lemma page_run es : forall s,
  page_invariant s -> Forall well_timed es ->
  exists s', App.run s es = Some s' /\ page_invariant s'.
Proof.
  induction es as [|e es IH]; intros s Hs Hw.
  - exists s. split; [reflexivity | exact Hs].
  - inversion Hw as [|? ? He Hes]; subst.
    destruct (@page_step e s Hs He) as [s1 [alert [H1 Hs1]]].
    cbn [App.run]. rewrite H1. apply IH; assumption.
Qed.

Lemma filter_all (A : Type) (f : A -> bool) (l : list A) :
  (forall x, In x l -> f x = true) -> filter f l = l.
Proof.
  induction l as [|x l IH]; intros H; simpl; [reflexivity|].
  rewrite (H x (or_introl eq_refl)). f_equal.
  apply IH. intros y Hy. apply H. right. exact Hy.
Qed.

Lemma initialState_page_invariant : page_invariant initialState.
Proof.
  unfold page_invariant. simpl. repeat split.
  - intros q [<-|[<-|[<-|[]]]]; reflexivity.
  - intros r [].
Qed.

(** X15: as long as only the pages drive the store, by captures of the
    registration page and the buttons of the attendance page, with clock
    times written HH:MM:SS, no handler throws and, from the initial state
    on: totalClockOuts stays 0, since a clock-out patches a record and no
    page adds a record with a clock-out time; totalClockIns and presentToday
    both equal the number of attendance records; totalPersons equals the
    length of the roster, all of whose persons are active; and there is no
    training session. *)
Theorem X15_what_the_pages_keep (es : list App.Event)
  (Hw : Forall well_timed es) :
  exists s,
    App.run initialState es = Some s
    /\ Statistics.totalClockOuts (statistics s) = 0
    /\ Statistics.totalClockIns (statistics s)
       = Z.of_nat (List.length (attendanceRecords s))
    /\ Statistics.presentToday (statistics s)
       = Z.of_nat (List.length (attendanceRecords s))
    /\ Statistics.totalPersons (statistics s)
       = Z.of_nat (List.length (persons s))
    /\ TrainImages.activePersons s = persons s
    /\ trainingSessions s = [].
Proof.
  destruct (@page_run es initialState initialState_page_invariant Hw)
    as [s [Hrun [Hp [Ho [Hi [Ht [Htr [Hact _]]]]]]]].
  exists s. repeat split; try assumption.
  apply filter_all. exact Hact.
Qed.

(** X15 on a registration, a session, a clock-in and a clock-out. *)
Lemma X15_what_the_pages_keep_witness :
  exists s,
    App.run initialState
      [App.Capture 1 (AddPerson.mkForm "4" "Charan" "" "");
       App.StartSession 2 "01:00:00";
       App.ClockIn (mkClock 3 "2023-11-14" (PageSpec.hms 9 0 0))
         (Some StoreSpec.fourth) 90;
       App.ClockOut (mkClock 4 "2023-11-14" (PageSpec.hms 10 30 15))
         (Some StoreSpec.fourth);
       App.SaveAttendance 5]
    = Some s
    /\ Statistics.totalClockOuts (statistics s) = 0.
Proof.
  assert (T : forall n h m sec, PageSpec.clock_fields h m sec ->
                timed (mkClock n "2023-11-14" (PageSpec.hms h m sec))).
  { intros n h m sec F. exists h, m, sec. split; [exact F | reflexivity]. }
  destruct (@X15_what_the_pages_keep
              [App.Capture 1 (AddPerson.mkForm "4" "Charan" "" "");
               App.StartSession 2 "01:00:00";
               App.ClockIn (mkClock 3 "2023-11-14" (PageSpec.hms 9 0 0))
                 (Some StoreSpec.fourth) 90;
               App.ClockOut (mkClock 4 "2023-11-14" (PageSpec.hms 10 30 15))
                 (Some StoreSpec.fourth);
               App.SaveAttendance 5])
    as [s [H1 [H2 _]]].
  - repeat constructor; apply T; unfold PageSpec.clock_fields; lia.
  - exists s. split; assumption.
Defined.

End AttendancePageProps.

(** ** More on the registration form and the duration *)

Module MorePageProps.

Import Js PageSpec MoreSpec.

Lemma test_plus_cls_false p s :
  all_chars is_space s = false ->
  (test (Plus (Cls p)) s = false <-> all_chars p s = false).
Proof.
  intros Hb. pose proof (FormProps.test_plus_cls p s) as H.
  assert (Hne : s <> EmptyString) by (intros ->; discriminate Hb).
  destruct (test (Plus (Cls p)) s); destruct (all_chars p s);
    split; intros E; try reflexivity; try discriminate E.
  - destruct H as [H _]. destruct (H eq_refl) as [_ H']. discriminate H'.
  - destruct H as [_ H]. discriminate H. split; [exact Hne | reflexivity].
Qed.

(** X16: which message a field gets.  The identifier gets 'ID is required'
    exactly when it is empty or all white space, and 'ID must be numeric'
    exactly when it is not blank and not all digits, so that digits with a
    space before or after them are refused as not numeric; the name gets
    'Name is required' and 'Name must contain only letters' in the same
    way; the email gets 'Invalid email format' exactly when it is not empty
    and not of the [local@domain.tld] shape. *)
Theorem X16_validation_messages (f : AddPerson.FormData) :
  (AddPerson.Errors.id (AddPerson.newErrors f)
   = Some "ID is required"%string
   <-> all_chars is_space (AddPerson.id f) = true)
  /\ (AddPerson.Errors.id (AddPerson.newErrors f)
      = Some "ID must be numeric"%string
      <-> all_chars is_space (AddPerson.id f) = false
          /\ all_chars is_digit (AddPerson.id f) = false)
  /\ (AddPerson.Errors.name (AddPerson.newErrors f)
      = Some "Name is required"%string
      <-> all_chars is_space (AddPerson.name f) = true)
  /\ (AddPerson.Errors.name (AddPerson.newErrors f)
      = Some "Name must contain only letters"%string
      <-> all_chars is_space (AddPerson.name f) = false
          /\ all_chars (fun c => is_letter c || is_space c)
               (AddPerson.name f) = false)
  /\ (AddPerson.Errors.email (AddPerson.newErrors f)
      = Some "Invalid email format"%string
      <-> AddPerson.email f <> EmptyString
          /\ ~ email_shape (AddPerson.email f)).
Proof.
  unfold AddPerson.newErrors, AddPerson.re_id, AddPerson.re_name.
  cbn [AddPerson.Errors.id AddPerson.Errors.name AddPerson.Errors.email].
  pose proof (FormProps.trim_falsy (AddPerson.id f)) as Ti.
  pose proof (FormProps.trim_falsy (AddPerson.name f)) as Tn.
  pose proof (@test_plus_cls_false is_digit (AddPerson.id f)) as Di.
  pose proof (@test_plus_cls_false (fun c => is_letter c || is_space c)
                (AddPerson.name f)) as Dn.
  pose proof (FormProps.test_re_email (AddPerson.email f)) as E.
  assert (Bi : truthy (trim (AddPerson.id f)) = true
               <-> all_chars is_space (AddPerson.id f) = false).
  { destruct (truthy (trim (AddPerson.id f)));
      destruct (all_chars is_space (AddPerson.id f));
      split; intros H; try reflexivity; try discriminate H.
    - destruct Ti as [_ Ti]. discriminate (Ti eq_refl).
    - destruct Ti as [Ti _]. discriminate (Ti eq_refl). }
  assert (Bn : truthy (trim (AddPerson.name f)) = true
               <-> all_chars is_space (AddPerson.name f) = false).
  { destruct (truthy (trim (AddPerson.name f)));
      destruct (all_chars is_space (AddPerson.name f));
      split; intros H; try reflexivity; try discriminate H.
    - destruct Tn as [_ Tn]. discriminate (Tn eq_refl).
    - destruct Tn as [Tn _]. discriminate (Tn eq_refl). }
  split; [|split; [|split; [|split]]].
  - split; intros H.
    + apply Ti. destruct (truthy (trim (AddPerson.id f))); [|reflexivity].
      simpl in H. match type of H with context [negb ?t] => destruct t end;
        discriminate H.
    + apply Ti in H. rewrite H. reflexivity.
  - split.
    + intros H. destruct (all_chars is_space (AddPerson.id f)) eqn:S.
      * destruct Ti as [_ Ti]. rewrite (Ti eq_refl) in H. discriminate H.
      * split; [reflexivity|]. apply (Di eq_refl).
        destruct Bi as [_ Bi]. rewrite (Bi eq_refl) in H. simpl in H.
        match type of H with context [negb ?t] => destruct t end;
          [discriminate H | reflexivity].
    + intros [Hb Hd]. apply (Di Hb) in Hd. apply Bi in Hb.
      rewrite Hb, Hd. reflexivity.
  - split; intros H.
    + apply Tn. destruct (truthy (trim (AddPerson.name f))); [|reflexivity].
      simpl in H. match type of H with context [negb ?t] => destruct t end;
        discriminate H.
    + apply Tn in H. rewrite H. reflexivity.
  - split.
    + intros H. destruct (all_chars is_space (AddPerson.name f)) eqn:S.
      * destruct Tn as [_ Tn]. rewrite (Tn eq_refl) in H. discriminate H.
      * split; [reflexivity|]. apply (Dn eq_refl).
        destruct Bn as [_ Bn]. rewrite (Bn eq_refl) in H. simpl in H.
        match type of H with context [negb ?t] => destruct t end;
          [discriminate H | reflexivity].
    + intros [Hb Hd]. apply (Dn Hb) in Hd. apply Bn in Hb.
      rewrite Hb, Hd. reflexivity.
  - unfold truthy. split.
    + intros H.
      destruct (String.eqb_spec (AddPerson.email f) "") as [Z|Z];
        simpl in H; [discriminate H|].
      split; [exact Z|]. intros S. apply E in S. rewrite S in H.
      discriminate H.
    + intros [Hne Hs].
      destruct (String.eqb_spec (AddPerson.email f) ""); [contradiction|].
      destruct (test AddPerson.re_email (AddPerson.email f));
        [|reflexivity].
      exfalso. apply Hs, E. reflexivity.
Qed.

(** X16 on an identifier with a space before its digits. *)
Lemma X16_validation_messages_witness :
  AddPerson.Errors.id
    (AddPerson.newErrors (AddPerson.mkForm " 12" "John Doe" "" ""))
  = Some "ID must be numeric"%string.
Proof.
  apply (proj2 (proj1 (proj2 (X16_validation_messages
                                (AddPerson.mkForm " 12" "John Doe" "" ""))))).
  split; reflexivity.
Defined.

Lemma count_char_app c a b :
  count_char c (a ++ b) = (count_char c a + count_char c b)%nat.
Proof.
  induction a as [|x a IH]; simpl; [reflexivity|]. rewrite IH. lia.
Qed.

Lemma all_chars_app p a b :
  all_chars p (a ++ b) = all_chars p a && all_chars p b.
Proof.
  unfold all_chars. rewrite FormProps.chars_app. apply forallb_app.
Qed.

Lemma address_part_chars s :
  address_part s ->
  count_char "@" s = 0%nat
  /\ all_chars (fun c => negb (is_space c)) s = true.
Proof.
  unfold address_part, all_chars, AddPerson.not_space_at. intros [_ H].
  induction s as [|c s IH]; simpl in *; [tauto|].
  apply andb_true_iff in H. destruct H as [Hc Hs].
  destruct (IH Hs) as [IH1 IH2]. rewrite IH1, IH2.
  apply negb_true_iff, orb_false_iff in Hc. destruct Hc as [Hc1 Hc2].
  rewrite Hc1, Hc2. tauto.
Qed.

(** X17: an email that the validation lets through, when it is not empty,
    has exactly one [@] and no white space. *)
Theorem X17_accepted_email_has_one_at (f : AddPerson.FormData)
  (Hvalid : AddPerson.validateForm f = true)
  (Hne : AddPerson.email f <> EmptyString) :
  count_char "@" (AddPerson.email f) = 1%nat
  /\ all_chars (fun c => negb (is_space c)) (AddPerson.email f) = true.
Proof.
  apply FormProps.validateForm_valid in Hvalid.
  destruct Hvalid as [_ [_ [He|He]]]; [contradiction|].
  destruct He as [l [d [t [-> [Hl [Hd Ht]]]]]].
  apply address_part_chars in Hl, Hd, Ht.
  destruct Hl as [L1 L2], Hd as [D1 D2], Ht as [T1 T2].
  rewrite !count_char_app, !all_chars_app, L1, L2, D1, D2, T1, T2.
  split; reflexivity.
Qed.

(** X17 on a common address. *)
Lemma X17_accepted_email_has_one_at_witness :
  count_char "@" "venkat@example.com" = 1%nat.
Proof.
  apply (@X17_accepted_email_has_one_at
           (AddPerson.mkForm "2" "Venkat" "venkat@example.com" "")
           ltac:(vm_compute; reflexivity) ltac:(discriminate)).
Defined.

Local Open Scope Z_scope.

Lemma padStart_negative n :
  -100 <= n < 0 ->
  exists rest, padStart 2 "0" (toString n) = String "-" rest.
Proof.
  intros Hn.
  pose proof (DurationProps.below_100
                (fun k => match padStart 2 "0" (toString (- (k + 1))) with
                          | String "-" _ => true
                          | _ => false
                          end)) as H.
  specialize (H ltac:(vm_compute; reflexivity) (- n - 1) ltac:(lia)).
  cbv beta in H. replace (- (- n - 1 + 1)) with n in H by lia.
  destruct (padStart 2 "0" (toString n)) as [|c rest]; [discriminate H|].
  destruct (Ascii.eqb_spec c "-") as [->|Hc].
  - exists rest. reflexivity.
  - exfalso.
    destruct c as [[] [] [] [] [] [] [] []]; try discriminate H.
    apply Hc. reflexivity.
Qed.

(** X18: a clock-out earlier than the clock-in is not wrapped around
    midnight: for well-formed HH:MM:SS inputs the result then starts with a
    minus sign, the hours being the floor of a negative quotient. *)
Theorem X18_negative_duration_keeps_its_sign (h1 m1 s1 h2 m2 s2 : Z)
  (Hin : clock_fields h1 m1 s1) (Hout : clock_fields h2 m2 s2)
  (Hlt : seconds_of h2 m2 s2 < seconds_of h1 m1 s1) :
  exists rest,
    MarkAttendance.calculateDuration (hms h1 m1 s1) (hms h2 m2 s2)
    = Some (String "-" rest).
Proof.
  unfold clock_fields, seconds_of in *.
  unfold MarkAttendance.calculateDuration.
  rewrite !DurationProps.hms_fields_hms by lia. cbv zeta.
  set (d := h2 * 3600 + m2 * 60 + s2 - (h1 * 3600 + m1 * 60 + s1)).
  assert (Hd : -360000 < d < 0) by (unfold d; lia).
  destruct (@padStart_negative (d / 3600)) as [rest Hrest].
  { split.
    - apply Z.div_le_lower_bound; lia.
    - apply Z.div_lt_upper_bound; lia. }
  rewrite Hrest. eexists. reflexivity.
Qed.

(** X18 from 23:59:59 to 00:00:00. *)
Lemma X18_negative_duration_keeps_its_sign_witness :
  exists rest,
    MarkAttendance.calculateDuration (hms 23 59 59) (hms 0 0 0)
    = Some (String "-" rest).
Proof.
  apply X18_negative_duration_keeps_its_sign;
    unfold clock_fields, seconds_of; lia.
Defined.

(** X19: the identifier of a clock-in record is the decimal writing of the
    millisecond it was made in, so two clock-ins get the same identifier
    exactly when they fall into the same millisecond. *)
Theorem X19_clock_in_ids_follow_the_millisecond
  (c1 c2 : MarkAttendancePage.Clock) (p1 p2 : Store.Person.t)
  (conf1 conf2 : Z) :
  Store.AttendanceRecord.id (MarkAttendancePage.clockInRecord c1 p1 conf1)
  = Store.AttendanceRecord.id (MarkAttendancePage.clockInRecord c2 p2 conf2)
  <-> MarkAttendancePage.ms c1 = MarkAttendancePage.ms c2.
Proof.
  simpl. split.
  - apply AttendancePageProps.toString_inj.
  - intros ->. reflexivity.
Qed.

End MorePageProps.

(** ** The reducer on run-time values *)

Module RawProps.

Import Raw.

Local Open Scope Z_scope.

Lemma mapM_map (A : Type) (enc : A -> value) (g : A -> A)
  (f : value -> outcome value) (l : list A) :
  (forall x, f (enc x) = Returns (enc (g x))) ->
  mapM f (map enc l) = Returns (map enc (map g l)).
Proof.
  intros H. induction l as [|x l IH]; simpl; [reflexivity|].
  rewrite H, IH. reflexivity.
Qed.

Lemma filterM_map (A : Type) (enc : A -> value) (h : A -> bool)
  (f : value -> outcome bool) (l : list A) :
  (forall x, f (enc x) = Returns (h x)) ->
  filterM f (map enc l) = Returns (map enc (filter h l)).
Proof.
  intros H. induction l as [|x l IH]; simpl; [reflexivity|].
  rewrite H, IH. simpl. destruct (h x); reflexivity.
Qed.

Lemma spread_person p u :
  spread2 (of_person p) (of_partial_person u)
  = of_person (Store.spreadPerson p u).
Proof.
  destruct u as [a b c d e f g].
  destruct a, b, c, d, e, f, g; reflexivity.
Qed.

Lemma spread_record r u :
  spread2 (of_record r) (of_partial_record u)
  = of_record (Store.spreadRecord r u).
Proof.
  destruct u as [a b c d e f g h i].
  destruct a, b, c, d, e, f, g, h, i; reflexivity.
Qed.

Lemma spread_training t u :
  spread2 (of_training t) (of_partial_training u)
  = of_training (Store.spreadSession t u).
Proof.
  destruct u as [a b c d e f g h].
  destruct a, b, c, d, e, f, g, h; reflexivity.
Qed.

Lemma truthy_of_option v :
  truthy (of_option Str v) = Store.truthy v.
Proof. destruct v; reflexivity. Qed.

Lemma present_of_status st :
  strict_eq (of_status st) (Str "Present")
  = Returns (Store.AttendanceStatus_eqb st Store.Present).
Proof. destruct st; reflexivity. Qed.

(** On the declared types the two embeddings of the reducer agree: run on a
    typed state and action as run-time values, the reducer returns, and
    returns the typed result. *)
Lemma raw_agrees now s a :
  attendanceReducer now (of_state s) (of_action a)
  = Returns (of_state (Store.attendanceReducer now s a)).
Proof.
  destruct a; unfold attendanceReducer, of_action, action_object;
    cbn [Store.action_type partial app get lookup bind String.eqb Ascii.eqb
         Bool.eqb].
  - unfold of_state. simpl. rewrite map_app. reflexivity.
  - cbn [of_state persons attendanceRecords trainingSessions currentSession
         statistics].
    rewrite (mapM_map of_person
               (fun person =>
                  if String.eqb (Store.Person.id person) id
                  then Store.spreadPerson person updates else person)).
    + reflexivity.
    + intros p. cbn [of_person get lookup bind String.eqb Ascii.eqb Bool.eqb
                     strict_eq].
      destruct (String.eqb (Store.Person.id p) id); [|reflexivity].
      fold (of_person p). rewrite spread_person. reflexivity.
  - cbn [of_state persons attendanceRecords trainingSessions currentSession
         statistics].
    rewrite (filterM_map of_person
               (fun person => negb (String.eqb (Store.Person.id person)
                                      payload))).
    + reflexivity.
    + intros p. reflexivity.
  - cbn [of_record get lookup bind String.eqb Ascii.eqb Bool.eqb].
    fold (of_record payload).
    rewrite !truthy_of_option, present_of_status.
    unfold of_state. simpl. rewrite map_app.
    destruct (Store.truthy (Store.AttendanceRecord.clockInTime payload));
      simpl; rewrite ?truthy_of_option; reflexivity.
  - cbn [of_state persons attendanceRecords trainingSessions currentSession
         statistics].
    rewrite (mapM_map of_record
               (fun record =>
                  if String.eqb (Store.AttendanceRecord.id record) id
                  then Store.spreadRecord record updates else record)).
    + reflexivity.
    + intros r. cbn [of_record get lookup bind String.eqb Ascii.eqb Bool.eqb
                     strict_eq].
      destruct (String.eqb (Store.AttendanceRecord.id r) id); [|reflexivity].
      fold (of_record r). rewrite spread_record. reflexivity.
  - unfold of_state. simpl. rewrite map_app. reflexivity.
  - cbn [of_state persons attendanceRecords trainingSessions currentSession
         statistics].
    rewrite (mapM_map of_training
               (fun session =>
                  if String.eqb (Store.TrainingSession.id session) id
                  then Store.spreadSession session updates else session)).
    + reflexivity.
    + intros t. cbn [of_training get lookup bind String.eqb Ascii.eqb
                     Bool.eqb strict_eq].
      destruct (String.eqb (Store.TrainingSession.id t) id); [|reflexivity].
      fold (of_training t). rewrite spread_training. reflexivity.
  - reflexivity.
  - reflexivity.
  - reflexivity.
Qed.

Lemma unhandled_returns_state now st action t :
  get action "type" = Returns t ->
  (forall h, In h Store.handled_types -> t <> Str h) ->
  attendanceReducer now st action = Returns st.
Proof.
  intros Ht Hn. unfold attendanceReducer. rewrite Ht. cbn [bind].
  destruct t as [| | | |t| |]; try reflexivity.
  repeat match goal with
         | |- context [String.eqb t ?h] =>
             destruct (String.eqb_spec t h) as [->|_];
             [exfalso; apply (Hn h); [simpl; tauto | reflexivity]|]
         end.
  reflexivity.
Qed.

Lemma get_not_missing payload k :
  ~ missing payload -> exists v, get payload k = Returns v.
Proof.
  unfold missing. intros H.
  destruct payload; simpl; eauto; exfalso; apply H; tauto.
Qed.

Lemma get_missing payload k : missing payload -> get payload k = TypeError.
Proof. intros [->| ->]; reflexivity. Qed.

Lemma payload_read type payload :
  get (action_object type payload) "payload"
  = Returns (of_option (fun v => v) payload).
Proof. destruct payload; reflexivity. Qed.




End RawProps.
